(** * Skillcy: the profile statistics kept by the database triggers

    A shallow embedding of the SQL of [supabase/migrations] (the three
    tables, their constraints, [update_profile_stats] and the two trigger
    functions bound to [user_courses] and [courses]) and of the three
    client functions that write the columns the statistics depend on
    ([toggleCourseCompletion], [handleMarkCompleted], [updateProfile]).

    A table is a finite map from its primary key [id] to the remaining
    columns of the row; a nullable column is an [option]; a statement either
    commits a new database or fails with an SQLSTATE and leaves the database
    as it was.  Row-level security is enforced by the hosted backend before
    a statement runs and is not part of this development. *)

From Stdlib Require Import ZArith Ascii.
From stdpp Require Import base decidable option strings gmap fin_maps fin_sets.

(** ** Values *)

(** [UUID] and [TIMESTAMP WITH TIME ZONE] values travel as strings between
    the client and the backend. *)
Abbreviation uuid := string.
Abbreviation timestamptz := string.

(** The SQLSTATE conditions a statement of this schema can raise. *)
Inductive sqlstate :=
  | unique_violation
  | foreign_key_violation
  | numeric_value_out_of_range
  | invalid_text_representation.

Inductive result (A : Type) :=
  | Ok (a : A)
  | Err (e : sqlstate).
Arguments Ok {A} a.
Arguments Err {A} e.

#[global] Instance result_ret : MRet result := λ A a, Ok a.
#[global] Instance result_bind : MBind result :=
  λ A B f m, match m with Ok a => f a | Err e => Err e end.

#[global] Instance sqlstate_eq_dec : EqDecision sqlstate.
Proof. solve_decision. Defined.

(** ** Tables *)

(** [public.profiles]; the key of the table is the column [id]. *)
Module profiles.
(** [role TEXT CHECK (role IN ('user', 'premium', 'admin'))] *)
Inductive Role := user | premium | admin.

Record Row := mk {
  user_id : uuid;
  full_name : option string;
  avatar_url : option string;
  role : Role;
  created_at : timestamptz;
  updated_at : timestamptz;
  completed : option Z;
  enrolled : option Z;
  uploads : option Z
}.

#[global] Instance Role_eq_dec : EqDecision Role.
Proof. solve_decision. Defined.
#[global] Instance Row_eq_dec : EqDecision Row.
Proof. solve_decision. Defined.
End profiles.

(** [public.courses] after the three migrations ([category_id] dropped,
    [image_url] and [uploader_email] added). *)
Module courses.
Inductive ContentType := video | pdf | text.
Inductive AccessType := private | public | premium.
Inductive Difficulty := beginner | intermediate | advanced.

Record Row := mk {
  title : string;
  description : option string;
  content_type : ContentType;
  content_url : option string;
  content_text : option string;
  uploader_id : uuid;
  access_type : AccessType;
  difficulty : option Difficulty;
  tags : option (list string);
  is_approved : option bool;
  created_at : timestamptz;
  updated_at : timestamptz;
  image_url : option string;
  uploader_email : option string
}.

#[global] Instance ContentType_eq_dec : EqDecision ContentType.
Proof. solve_decision. Defined.
#[global] Instance AccessType_eq_dec : EqDecision AccessType.
Proof. solve_decision. Defined.
#[global] Instance Difficulty_eq_dec : EqDecision Difficulty.
Proof. solve_decision. Defined.
#[global] Instance Row_eq_dec : EqDecision Row.
Proof. solve_decision. Defined.
End courses.

(** [public.user_courses] after the stats migration ([progress] dropped,
    [completed] and [completed_at] added). *)
Module user_courses.
Record Row := mk {
  user_id : uuid;
  course_id : uuid;
  added_at : timestamptz;
  completed : option bool;
  completed_at : option timestamptz
}.

#[global] Instance Row_eq_dec : EqDecision Row.
Proof. solve_decision. Defined.
End user_courses.

(** The database: the three public tables and the identities of
    [auth.users], which the foreign keys on [user_id] and [uploader_id]
    point to. *)
Record database := Database {
  auth_users : gset uuid;
  tbl_profiles : gmap uuid profiles.Row;
  tbl_courses : gmap uuid courses.Row;
  tbl_user_courses : gmap uuid user_courses.Row
}.

Definition empty_db : database := Database ∅ ∅ ∅ ∅.

Definition with_profiles (db : database) (t : gmap uuid profiles.Row) : database :=
  Database (auth_users db) t (tbl_courses db) (tbl_user_courses db).
Definition with_courses (db : database) (t : gmap uuid courses.Row) : database :=
  Database (auth_users db) (tbl_profiles db) t (tbl_user_courses db).
Definition with_user_courses (db : database) (t : gmap uuid user_courses.Row) : database :=
  Database (auth_users db) (tbl_profiles db) (tbl_courses db) t.

(** ** [update_profile_stats] *)

(** [SELECT COUNT( * ) FROM t WHERE P]: the number of rows satisfying [P],
    a [bigint]. *)
Definition count_where {A} (P : A → Prop) `{!∀ x, Decision (P x)}
    (t : gmap uuid A) : Z :=
  Z.of_nat (size (filter (λ kv, P kv.2) t)).

(** A comparison with [NULL] is unknown, and [WHERE] keeps a row only when
    its condition is true: [col = arg] holds when [arg] is the non-null
    value of the (NOT NULL) column. *)
Definition sql_eq (col : uuid) (arg : option uuid) : Prop := arg = Some col.
#[global] Instance sql_eq_dec col arg : Decision (sql_eq col arg).
Proof. unfold sql_eq. apply _. Defined.

(** [WHERE user_id = user_uuid AND completed = TRUE] *)
Definition count_completed (user_uuid : option uuid)
    (t : gmap uuid user_courses.Row) : Z :=
  count_where (λ r, sql_eq (user_courses.user_id r) user_uuid
                    ∧ user_courses.completed r = Some true) t.

(** [WHERE user_id = user_uuid] *)
Definition count_enrolled (user_uuid : option uuid)
    (t : gmap uuid user_courses.Row) : Z :=
  count_where (λ r, sql_eq (user_courses.user_id r) user_uuid) t.

(** [WHERE uploader_id = user_uuid] *)
Definition count_uploads (user_uuid : option uuid)
    (t : gmap uuid courses.Row) : Z :=
  count_where (λ r, sql_eq (courses.uploader_id r) user_uuid) t.

(** Storing a [bigint] into an [INTEGER] column casts it, and the cast
    raises when the value does not fit in 32 bits. *)
Definition int4_min : Z := -2147483648.
Definition int4_max : Z := 2147483647.
Definition to_int4 (n : Z) : result Z :=
  if decide (int4_min ≤ n ≤ int4_max)%Z then Ok n
  else Err numeric_value_out_of_range.

(** The [SET] list of the [UPDATE]: the three counters, nothing else. *)
Definition set_stats (p : profiles.Row) (c e u : Z) : profiles.Row :=
  profiles.mk (profiles.user_id p) (profiles.full_name p)
    (profiles.avatar_url p) (profiles.role p) (profiles.created_at p)
    (profiles.updated_at p) (Some c) (Some e) (Some u).

(** The [UPDATE] applied to one row: [SET] where [user_id = user_uuid],
    the row as it is elsewhere. *)
Definition set_stats_where (user_uuid : option uuid) (c e u : Z)
    (p : profiles.Row) : profiles.Row :=
  if decide (sql_eq (profiles.user_id p) user_uuid)
  then set_stats p c e u else p.

(** [UPDATE public.profiles SET completed = (..), enrolled = (..),
    uploads = (..) WHERE user_id = user_uuid].  The sub-selects do not
    mention the updated row; they are evaluated (and cast) only for a row
    that the [WHERE] clause selects. *)
Definition update_profile_stats (user_uuid : option uuid) (db : database)
    : result database :=
  if decide (map_Exists (λ _ p, sql_eq (profiles.user_id p) user_uuid)
               (tbl_profiles db))
  then
    c ← to_int4 (count_completed user_uuid (tbl_user_courses db));
    e ← to_int4 (count_enrolled user_uuid (tbl_user_courses db));
    u ← to_int4 (count_uploads user_uuid (tbl_courses db));
    Ok (with_profiles db (set_stats_where user_uuid c e u <$> tbl_profiles db))
  else Ok db.

(** ** Trigger functions *)

Inductive tg_op := INSERT | UPDATE | DELETE.
#[global] Instance tg_op_eq_dec : EqDecision tg_op.
Proof. solve_decision. Defined.

(** What a row-level trigger is called with: the operation and the row
    images it makes available. *)
Inductive trigger_data (R : Type) :=
  | TgInsert (new : R)
  | TgUpdate (old new : R)
  | TgDelete (old : R).
Arguments TgInsert {R} new.
Arguments TgUpdate {R} old new.
Arguments TgDelete {R} old.

Definition TG_OP {R} (tg : trigger_data R) : tg_op :=
  match tg with
  | TgInsert _ => INSERT
  | TgUpdate _ _ => UPDATE
  | TgDelete _ => DELETE
  end.

(** [NEW] is null in a [DELETE] trigger and [OLD] is null in an [INSERT]
    trigger; a column of a null record is [NULL]. *)
Definition NEW {R} (tg : trigger_data R) : option R :=
  match tg with
  | TgInsert new | TgUpdate _ new => Some new
  | TgDelete _ => None
  end.

Definition OLD {R} (tg : trigger_data R) : option R :=
  match tg with
  | TgInsert _ => None
  | TgUpdate old _ | TgDelete old => Some old
  end.

(** [trigger_update_profile_stats()], bound [AFTER INSERT OR UPDATE OR
    DELETE ON public.user_courses FOR EACH ROW].  The value it returns is
    ignored for an [AFTER] trigger. *)
Definition trigger_update_profile_stats
    (tg : trigger_data user_courses.Row) (db : database) : result database :=
  db ← (if decide (TG_OP tg = INSERT ∨ TG_OP tg = UPDATE)
        then update_profile_stats (user_courses.user_id <$> NEW tg) db
        else Ok db);
  if decide (TG_OP tg = DELETE)
  then update_profile_stats (user_courses.user_id <$> OLD tg) db
  else Ok db.

(** [trigger_update_upload_stats()], bound [AFTER INSERT OR UPDATE OR
    DELETE ON public.courses FOR EACH ROW]. *)
Definition trigger_update_upload_stats
    (tg : trigger_data courses.Row) (db : database) : result database :=
  db ← (if decide (TG_OP tg = INSERT ∨ TG_OP tg = UPDATE)
        then update_profile_stats (courses.uploader_id <$> NEW tg) db
        else Ok db);
  if decide (TG_OP tg = DELETE)
  then update_profile_stats (courses.uploader_id <$> OLD tg) db
  else Ok db.

(** ** Row-level statements and their constraints *)

Definition check (P : Prop) `{!Decision P} (e : sqlstate) : result unit :=
  if decide P then Ok () else Err e.

(** [UNIQUE(user_id, course_id)]: some row other than [id] already holds
    the pair of [new]. *)
Definition pair_taken (id : uuid) (new : user_courses.Row)
    (t : gmap uuid user_courses.Row) : Prop :=
  map_Exists (λ k r, k ≠ id
                     ∧ user_courses.user_id r = user_courses.user_id new
                     ∧ user_courses.course_id r = user_courses.course_id new) t.

(** [fk_courses_uploader_profiles]: [uploader_id] references
    [profiles(user_id)]. *)
Definition has_profile (u : uuid) (db : database) : Prop :=
  map_Exists (λ _ p, profiles.user_id p = u) (tbl_profiles db).

(** [user_courses.course_id REFERENCES public.courses], declared without
    [ON DELETE]: a referenced course cannot be deleted. *)
Definition course_referenced (id : uuid) (db : database) : Prop :=
  map_Exists (λ _ r, user_courses.course_id r = id) (tbl_user_courses db).

(** [INSERT INTO public.user_courses]; [id] is the key the row receives
    ([gen_random_uuid()] unless the statement supplies one). *)
Definition insert_user_courses (id : uuid) (new : user_courses.Row)
    (db : database) : result database :=
  check (tbl_user_courses db !! id = None) unique_violation;;
  check (¬ pair_taken id new (tbl_user_courses db)) unique_violation;;
  check (user_courses.user_id new ∈ auth_users db) foreign_key_violation;;
  check (is_Some (tbl_courses db !! user_courses.course_id new))
    foreign_key_violation;;
  trigger_update_profile_stats (TgInsert new)
    (with_user_courses db (<[id:=new]> (tbl_user_courses db))).

(** [UPDATE public.user_courses SET .. WHERE id = id]: [new] is the row
    image after the assignment.  No row with that key: zero rows are
    updated and no trigger fires.  A foreign key is checked again only when
    its column changed. *)
Definition update_user_courses (id : uuid) (new : user_courses.Row)
    (db : database) : result database :=
  match tbl_user_courses db !! id with
  | None => Ok db
  | Some old =>
      check (¬ pair_taken id new (tbl_user_courses db)) unique_violation;;
      check (user_courses.user_id new = user_courses.user_id old
             ∨ user_courses.user_id new ∈ auth_users db)
        foreign_key_violation;;
      check (user_courses.course_id new = user_courses.course_id old
             ∨ is_Some (tbl_courses db !! user_courses.course_id new))
        foreign_key_violation;;
      trigger_update_profile_stats (TgUpdate old new)
        (with_user_courses db (<[id:=new]> (tbl_user_courses db)))
  end.

(** [DELETE FROM public.user_courses WHERE id = id] *)
Definition delete_user_courses (id : uuid) (db : database)
    : result database :=
  match tbl_user_courses db !! id with
  | None => Ok db
  | Some old =>
      trigger_update_profile_stats (TgDelete old)
        (with_user_courses db (delete id (tbl_user_courses db)))
  end.

(** [INSERT INTO public.courses] *)
Definition insert_courses (id : uuid) (new : courses.Row) (db : database)
    : result database :=
  check (tbl_courses db !! id = None) unique_violation;;
  check (courses.uploader_id new ∈ auth_users db) foreign_key_violation;;
  check (has_profile (courses.uploader_id new) db) foreign_key_violation;;
  trigger_update_upload_stats (TgInsert new)
    (with_courses db (<[id:=new]> (tbl_courses db))).

(** [UPDATE public.courses SET .. WHERE id = id] *)
Definition update_courses (id : uuid) (new : courses.Row) (db : database)
    : result database :=
  match tbl_courses db !! id with
  | None => Ok db
  | Some old =>
      check (courses.uploader_id new = courses.uploader_id old
             ∨ (courses.uploader_id new ∈ auth_users db
                ∧ has_profile (courses.uploader_id new) db))
        foreign_key_violation;;
      trigger_update_upload_stats (TgUpdate old new)
        (with_courses db (<[id:=new]> (tbl_courses db)))
  end.

(** [DELETE FROM public.courses WHERE id = id] *)
Definition delete_courses (id : uuid) (db : database) : result database :=
  match tbl_courses db !! id with
  | None => Ok db
  | Some old =>
      check (¬ course_referenced id db) foreign_key_violation;;
      trigger_update_upload_stats (TgDelete old)
        (with_courses db (delete id (tbl_courses db)))
  end.

(** The row mutations the two triggers are bound to. *)
Inductive statement :=
  | InsertUserCourse (id : uuid) (new : user_courses.Row)
  | UpdateUserCourse (id : uuid) (new : user_courses.Row)
  | DeleteUserCourse (id : uuid)
  | InsertCourse (id : uuid) (new : courses.Row)
  | UpdateCourse (id : uuid) (new : courses.Row)
  | DeleteCourse (id : uuid).

Definition exec (st : statement) (db : database) : result database :=
  match st with
  | InsertUserCourse id new => insert_user_courses id new db
  | UpdateUserCourse id new => update_user_courses id new db
  | DeleteUserCourse id => delete_user_courses id db
  | InsertCourse id new => insert_courses id new db
  | UpdateCourse id new => update_courses id new db
  | DeleteCourse id => delete_courses id db
  end.

(** A statement is its own transaction: the database after it is the one
    it produced, or the one before it when it was rejected. *)
Definition commit (r : result database) (db : database) : database :=
  match r with Ok db' => db' | Err _ => db end.

Definition run (sts : list statement) (db : database) : database :=
  foldl (λ d st, commit (exec st d) d) db sts.

(** ** Profile creation and the profile form *)

(** [handle_new_user()]: [INSERT INTO public.profiles (user_id, full_name)
    VALUES (new.id, new.raw_user_meta_data->>'full_name')]; the other
    columns take their defaults. *)
Definition handle_new_user (new_id : uuid) (meta_full_name : option string)
    (id : uuid) (now : timestamptz) (db : database) : result database :=
  check (tbl_profiles db !! id = None) unique_violation;;
  check (¬ has_profile new_id db) unique_violation;;
  check (new_id ∈ auth_users db) foreign_key_violation;;
  Ok (with_profiles db
        (<[id := profiles.mk new_id meta_full_name None profiles.user
                   now now (Some 0%Z) (Some 0%Z) (Some 0%Z)]>
           (tbl_profiles db))).

(** A new identity in [auth.users]; [on_auth_user_created] runs
    [handle_new_user] after the insert, in the same transaction. *)
Definition insert_auth_users (new_id : uuid) (meta_full_name : option string)
    (id : uuid) (now : timestamptz) (db : database) : result database :=
  check (new_id ∉ auth_users db) unique_violation;;
  handle_new_user new_id meta_full_name id now
    (Database ({[new_id]} ∪ auth_users db) (tbl_profiles db)
       (tbl_courses db) (tbl_user_courses db)).

(** The avatar address is the fixed prefix followed by the seed. *)
Definition avatarUrl (avatarSeed : string) : string :=
  "https://api.dicebear.com/7.x/avataaars/svg?seed=" +:+ avatarSeed.

(** [updateProfile] of the profile page:
    [.from('profiles').update({ full_name, avatar_url, updated_at })
     .eq('user_id', user?.id)]; [now] is [new Date().toISOString()].
    Without a signed-in user the filter value is not a uuid and the request
    fails.  No trigger is bound to [profiles]. *)
Definition updateProfile (user : option uuid) (fullName avatarSeed : string)
    (now : timestamptz) (db : database) : result database :=
  match user with
  | None => Err invalid_text_representation
  | Some uid =>
      Ok (with_profiles db
            ((λ p, if decide (profiles.user_id p = uid)
                   then profiles.mk (profiles.user_id p) (Some fullName)
                          (Some (avatarUrl avatarSeed)) (profiles.role p)
                          (profiles.created_at p) now (profiles.completed p)
                          (profiles.enrolled p) (profiles.uploads p)
                   else p) <$> tbl_profiles db))
  end.

(** ** Marking an enrollment completed *)

(** [.from('user_courses').update({ completed, completed_at }).eq('id', id)],
    followed by [.eq('user_id', uid)] when [owner] is [Some uid]: the row
    with that key is updated when it passes the filters; the other columns
    keep their values. *)
Definition set_completion (r : user_courses.Row) (flag : bool)
    (stamp : option timestamptz) : user_courses.Row :=
  user_courses.mk (user_courses.user_id r) (user_courses.course_id r)
    (user_courses.added_at r) (Some flag) stamp.

Definition update_completion (id : uuid) (owner : option uuid)
    (flag : bool) (stamp : option timestamptz) (db : database)
    : result database :=
  match tbl_user_courses db !! id with
  | None => Ok db
  | Some old =>
      if decide (owner = None ∨ owner = Some (user_courses.user_id old))
      then exec (UpdateUserCourse id (set_completion old flag stamp)) db
      else Ok db
  end.

(** [toggleCourseCompletion(userCourseId, currentStatus)] of the library
    page; [now] is [new Date().toISOString()]. *)
Definition toggleCourseCompletion (user : option uuid) (now : timestamptz)
    (userCourseId : uuid) (currentStatus : bool) (db : database)
    : result database :=
  match user with
  | None => Err invalid_text_representation
  | Some uid =>
      update_completion userCourseId (Some uid) (negb currentStatus)
        (if negb currentStatus then Some now else None) db
  end.

(** The state of the course page that [handleMarkCompleted] reads and
    writes. *)
Module Learn.
Record State := mk {
  userCourseId : option uuid;
  completed : bool
}.
End Learn.

(** [handleMarkCompleted()] of the course page: nothing without a
    [userCourseId]; the page flips its own flag when the update raised no
    error. *)
Definition handleMarkCompleted (now : timestamptz) (st : Learn.State)
    (db : database) : Learn.State * database :=
  match Learn.userCourseId st with
  | None | Some "" => (st, db)
  | Some id =>
      match update_completion id None (negb (Learn.completed st))
              (if negb (Learn.completed st) then Some now else None) db with
      | Ok db' => (Learn.mk (Some id) (negb (Learn.completed st)), db')
      | Err _ => (st, db)
      end
  end.

(** ** Predicates used by the statements below *)

#[global] Instance database_eq_dec : EqDecision database.
Proof. solve_decision. Defined.

(** The profile table as [update_profile_stats] leaves it when it
    succeeds. *)
Definition recomputed (user_uuid : option uuid) (db : database)
    : gmap uuid profiles.Row :=
  set_stats_where user_uuid
    (count_completed user_uuid (tbl_user_courses db))
    (count_enrolled user_uuid (tbl_user_courses db))
    (count_uploads user_uuid (tbl_courses db)) <$> tbl_profiles db.

(** The counters of a profile row equal the live counts for its user. *)
Definition in_sync (p : profiles.Row) (db : database) : Prop :=
  profiles.enrolled p
    = Some (count_enrolled (Some (profiles.user_id p)) (tbl_user_courses db))
  ∧ profiles.completed p
    = Some (count_completed (Some (profiles.user_id p)) (tbl_user_courses db))
  ∧ profiles.uploads p
    = Some (count_uploads (Some (profiles.user_id p)) (tbl_courses db)).

Definition stats_consistent (U : uuid) (db : database) : Prop :=
  map_Forall (λ _ p, profiles.user_id p = U → in_sync p db) (tbl_profiles db).

#[global] Instance in_sync_dec p db : Decision (in_sync p db).
Proof. unfold in_sync. apply _. Defined.
#[global] Instance stats_consistent_dec U db : Decision (stats_consistent U db).
Proof. unfold stats_consistent. apply _. Defined.

(** Two profile rows agree on every column that is not a counter. *)
Definition same_but_stats (p p' : profiles.Row) : Prop :=
  profiles.user_id p' = profiles.user_id p
  ∧ profiles.full_name p' = profiles.full_name p
  ∧ profiles.avatar_url p' = profiles.avatar_url p
  ∧ profiles.role p' = profiles.role p
  ∧ profiles.created_at p' = profiles.created_at p
  ∧ profiles.updated_at p' = profiles.updated_at p.

(** Two profile rows agree on the three counters. *)
Definition same_stats (p p' : profiles.Row) : Prop :=
  profiles.completed p' = profiles.completed p
  ∧ profiles.enrolled p' = profiles.enrolled p
  ∧ profiles.uploads p' = profiles.uploads p.

(** The three counters hold non-negative integers (and are not [NULL]). *)
Definition stats_nonneg (p : profiles.Row) : Prop :=
  ∃ c e u : Z,
    profiles.completed p = Some c ∧ profiles.enrolled p = Some e
    ∧ profiles.uploads p = Some u ∧ (0 ≤ c)%Z ∧ (0 ≤ e)%Z ∧ (0 ≤ u)%Z.

(** The statement is an [UPDATE] that takes a row away from [U]: the row
    it rewrites belongs to [U] and its new image does not. *)
Definition reassigns (U : uuid) (st : statement) (db : database) : Prop :=
  match st with
  | UpdateUserCourse id new =>
      match tbl_user_courses db !! id with
      | Some old => user_courses.user_id old = U ∧ user_courses.user_id new ≠ U
      | None => False
      end
  | UpdateCourse id new =>
      match tbl_courses db !! id with
      | Some old => courses.uploader_id old = U ∧ courses.uploader_id new ≠ U
      | None => False
      end
  | _ => False
  end.

#[global] Instance reassigns_dec U st db : Decision (reassigns U st db).
Proof. destruct st; simpl; try apply _; case_match; apply _. Defined.

(** No statement of the sequence, run from [db], takes a row away from
    [U]. *)
Fixpoint keeps_owner (U : uuid) (sts : list statement) (db : database)
    : Prop :=
  match sts with
  | [] => True
  | st :: sts =>
      ¬ reassigns U st db ∧ keeps_owner U sts (commit (exec st db) db)
  end.

(** The row a statement hands to its trigger belongs to [U]: the new image
    for an [INSERT] or an [UPDATE] of an existing row, the old one for a
    [DELETE]. *)
Definition trigger_row_of (U : uuid) (st : statement) (db : database) : Prop :=
  match st with
  | InsertUserCourse _ new => user_courses.user_id new = U
  | UpdateUserCourse id new =>
      is_Some (tbl_user_courses db !! id) ∧ user_courses.user_id new = U
  | DeleteUserCourse id =>
      user_courses.user_id <$> tbl_user_courses db !! id = Some U
  | InsertCourse _ new => courses.uploader_id new = U
  | UpdateCourse id new =>
      is_Some (tbl_courses db !! id) ∧ courses.uploader_id new = U
  | DeleteCourse id =>
      courses.uploader_id <$> tbl_courses db !! id = Some U
  end.

(** The statement is accepted and fires its trigger for [U]. *)
Definition fires_for (U : uuid) (st : statement) (db : database) : Prop :=
  (∃ db', exec st db = Ok db') ∧ trigger_row_of U st db.

(** Some statement of the sequence, run from [db], fires for [U]. *)
Fixpoint fires_within (U : uuid) (sts : list statement) (db : database)
    : Prop :=
  match sts with
  | [] => False
  | st :: sts =>
      fires_for U st db ∨ fires_within U sts (commit (exec st db) db)
  end.

(** The databases the repository's own writes produce from the empty one:
    row mutations of [user_courses] and [courses] (each followed by its
    trigger), sign-ups, and the profile form. *)
Inductive reachable : database → Prop :=
  | reachable_empty : reachable empty_db
  | reachable_exec st db db' :
      reachable db → exec st db = Ok db' → reachable db'
  | reachable_sign_up new_id meta_full_name id now db db' :
      reachable db →
      insert_auth_users new_id meta_full_name id now db = Ok db' →
      reachable db'
  | reachable_updateProfile user fullName avatarSeed now db db' :
      reachable db →
      updateProfile user fullName avatarSeed now db = Ok db' →
      reachable db'.

(** The live counts of [U] are the same in two databases. *)
Definition counts_kept (U : uuid) (db db' : database) : Prop :=
  count_enrolled (Some U) (tbl_user_courses db')
    = count_enrolled (Some U) (tbl_user_courses db)
  ∧ count_completed (Some U) (tbl_user_courses db')
    = count_completed (Some U) (tbl_user_courses db)
  ∧ count_uploads (Some U) (tbl_courses db')
    = count_uploads (Some U) (tbl_courses db).

#[global] Instance keeps_owner_dec U sts db : Decision (keeps_owner U sts db).
Proof. revert db. induction sts; simpl; intros; apply _. Defined.

(** ** A small database

    Two users sign up, the first uploads two courses.  Every later example
    starts from here. *)
Module sample.
Definition course (uploader : uuid) (title : string) : courses.Row :=
  courses.mk title None courses.video (Some "https://example.org/v") None
    uploader courses.public None None (Some true)
    "2025-06-27T10:00:00Z" "2025-06-27T10:00:00Z" None None.

(** The row of [addToLibrary]: [{ user_id, course_id, completed: false }],
    [completed_at] left to its default. *)
Definition enrollment (user course : uuid) : user_courses.Row :=
  user_courses.mk user course "2025-06-28T09:00:00Z" (Some false) None.

Definition first_sign_up : database :=
  commit (insert_auth_users "user-a" (Some "Ann") "profile-a"
            "2025-06-27T09:00:00Z" empty_db) empty_db.

Definition signed_up : database :=
  commit (insert_auth_users "user-b" (Some "Bob") "profile-b"
            "2025-06-27T09:05:00Z" first_sign_up) first_sign_up.

Definition base : database :=
  run [InsertCourse "course-1" (course "user-a" "Rocq");
       InsertCourse "course-2" (course "user-a" "SQL")] signed_up.

(** [user-a] enrolls in both courses and completes the first. *)
Definition enrolled : database :=
  run [InsertUserCourse "enrol-1" (enrollment "user-a" "course-1");
       InsertUserCourse "enrol-2" (enrollment "user-a" "course-2");
       UpdateUserCourse "enrol-1"
         (user_courses.mk "user-a" "course-1" "2025-06-28T09:00:00Z"
            (Some true) (Some "2025-06-29T12:00:00Z"))] base.

(** [UPDATE user_courses SET user_id = 'user-b' WHERE id = 'enrol-1']:
    the completed enrollment of [user-a] is handed to [user-b]. *)
Definition reassign : statement :=
  UpdateUserCourse "enrol-1"
    (user_courses.mk "user-b" "course-1" "2025-06-28T09:00:00Z"
       (Some true) (Some "2025-06-29T12:00:00Z")).

Definition reassigned : database := run [reassign] enrolled.

(** [user-a], whose profile is now out of date, enrolls in the first
    course again and removes it from the library at once. *)
Definition reenrolled : database :=
  run [InsertUserCourse "enrol-3" (enrollment "user-a" "course-1")]
    reassigned.
Definition unenrolled : database :=
  run [DeleteUserCourse "enrol-3"] reenrolled.

(** Or marks the second course completed and then incomplete on the
    library page. *)
Definition marked : database :=
  commit (toggleCourseCompletion (Some "user-a") "2025-06-30T08:00:00Z"
            "enrol-2" false reassigned) reassigned.
Definition unmarked : database :=
  commit (toggleCourseCompletion (Some "user-a") "2025-06-30T08:00:05Z"
            "enrol-2" true marked) marked.

(** The same two clicks while the profile was still in sync. *)
Definition ticked : database :=
  commit (toggleCourseCompletion (Some "user-a") "2025-06-30T08:00:00Z"
            "enrol-2" false enrolled) enrolled.
Definition unticked : database :=
  commit (toggleCourseCompletion (Some "user-a") "2025-06-30T08:00:05Z"
            "enrol-2" true ticked) ticked.
End sample.

(** ** Row-level security

    The policies of the first migration, for a session whose [auth.uid()]
    is [uid]: [None] for an anonymous session.  A comparison with
    [auth.uid()] is [sql_eq]; it is never true for an anonymous session. *)

(** [EXISTS (SELECT 1 FROM public.profiles WHERE user_id = auth.uid() AND
    role IN ('premium', 'admin'))]; every profile row is visible to the
    sub-select ("Users can view all profiles"). *)
Definition premium_session (uid : option uuid) (db : database) : Prop :=
  map_Exists (λ _ p, sql_eq (profiles.user_id p) uid
                     ∧ (profiles.role p = profiles.premium
                        ∨ profiles.role p = profiles.admin))
    (tbl_profiles db).

Module policy.
(** "Anyone can view approved public courses" *)
Definition view_public (c : courses.Row) : Prop :=
  courses.is_approved c = Some true ∧ courses.access_type c = courses.public.

(** "Premium users can view premium courses" *)
Definition view_premium (uid : option uuid) (db : database)
    (c : courses.Row) : Prop :=
  courses.is_approved c = Some true
  ∧ (courses.access_type c = courses.public
     ∨ (courses.access_type c = courses.premium ∧ premium_session uid db)).

(** "Users can view own private courses" *)
Definition view_own (uid : option uuid) (c : courses.Row) : Prop :=
  sql_eq (courses.uploader_id c) uid.

(** The [USING] and [WITH CHECK] expression of the insert, update and
    delete policies of [courses]: [auth.uid() = uploader_id]. *)
Definition own_course (uid : option uuid) (c : courses.Row) : Prop :=
  sql_eq (courses.uploader_id c) uid.

(** The expression of the four policies of [user_courses]:
    [auth.uid() = user_id]. *)
Definition own_user_course (uid : option uuid) (r : user_courses.Row) : Prop :=
  sql_eq (user_courses.user_id r) uid.

(** The expression of the insert and update policies of [profiles]:
    [auth.uid() = user_id]. *)
Definition own_profile (uid : option uuid) (p : profiles.Row) : Prop :=
  sql_eq (profiles.user_id p) uid.
End policy.

(** The three [SELECT] policies of [courses] are permissive: a row is
    visible when one of them holds. *)
Definition can_select_course (uid : option uuid) (db : database)
    (c : courses.Row) : Prop :=
  policy.view_public c ∨ policy.view_premium uid db c ∨ policy.view_own uid c.

#[global] Instance can_select_course_dec uid db c :
  Decision (can_select_course uid db c).
Proof.
  unfold can_select_course, policy.view_public, policy.view_premium,
    policy.view_own, premium_session. apply _.
Defined.

(** What becomes of a request: the policies refuse it (a new row fails a
    [WITH CHECK]), or the statement runs. *)
Inductive outcome :=
  | Denied
  | Ran (r : result database).

(** A row-level statement sent by a session.  An [INSERT] must pass the
    [WITH CHECK] of its policy.  An [UPDATE] or [DELETE] sees only the rows
    that pass [USING]: on another row it affects zero rows; an [UPDATE]
    policy without [WITH CHECK] applies its [USING] expression to the new
    row as well. *)
Definition exec_as (uid : option uuid) (st : statement) (db : database)
    : outcome :=
  match st with
  | InsertUserCourse _ new =>
      if decide (policy.own_user_course uid new) then Ran (exec st db)
      else Denied
  | UpdateUserCourse id new =>
      match tbl_user_courses db !! id with
      | None => Ran (Ok db)
      | Some old =>
          if decide (policy.own_user_course uid old)
          then if decide (policy.own_user_course uid new)
               then Ran (exec st db) else Denied
          else Ran (Ok db)
      end
  | DeleteUserCourse id =>
      match tbl_user_courses db !! id with
      | None => Ran (Ok db)
      | Some old =>
          if decide (policy.own_user_course uid old) then Ran (exec st db)
          else Ran (Ok db)
      end
  | InsertCourse _ new =>
      if decide (policy.own_course uid new) then Ran (exec st db) else Denied
  | UpdateCourse id new =>
      match tbl_courses db !! id with
      | None => Ran (Ok db)
      | Some old =>
          if decide (policy.own_course uid old)
          then if decide (policy.own_course uid new)
               then Ran (exec st db) else Denied
          else Ran (Ok db)
      end
  | DeleteCourse id =>
      match tbl_courses db !! id with
      | None => Ran (Ok db)
      | Some old =>
          if decide (policy.own_course uid old) then Ran (exec st db)
          else Ran (Ok db)
      end
  end.

Definition commit_as (uid : option uuid) (st : statement) (db : database)
    : database :=
  match exec_as uid st db with
  | Ran r => commit r db
  | Denied => db
  end.

(** The table change a statement makes before its trigger runs. *)
Definition mutated (st : statement) (db : database) : database :=
  match st with
  | InsertUserCourse id new | UpdateUserCourse id new =>
      with_user_courses db (<[id:=new]> (tbl_user_courses db))
  | DeleteUserCourse id =>
      with_user_courses db (delete id (tbl_user_courses db))
  | InsertCourse id new | UpdateCourse id new =>
      with_courses db (<[id:=new]> (tbl_courses db))
  | DeleteCourse id => with_courses db (delete id (tbl_courses db))
  end.

(** The row a statement writes belongs to the session, before and after
    the statement. *)
Definition writes_own (uid : option uuid) (st : statement) (db : database)
    : Prop :=
  match st with
  | InsertUserCourse _ new => policy.own_user_course uid new
  | UpdateUserCourse id new =>
      ∃ old, tbl_user_courses db !! id = Some old
             ∧ policy.own_user_course uid old ∧ policy.own_user_course uid new
  | DeleteUserCourse id =>
      ∃ old, tbl_user_courses db !! id = Some old
             ∧ policy.own_user_course uid old
  | InsertCourse _ new => policy.own_course uid new
  | UpdateCourse id new =>
      ∃ old, tbl_courses db !! id = Some old
             ∧ policy.own_course uid old ∧ policy.own_course uid new
  | DeleteCourse id =>
      ∃ old, tbl_courses db !! id = Some old ∧ policy.own_course uid old
  end.

(** ** More sample data *)
Module more.
Definition private_course : courses.Row :=
  courses.mk "Notes" None courses.text None (Some "draft") "user-a"
    courses.private None None (Some true)
    "2025-06-27T11:00:00Z" "2025-06-27T11:00:00Z" None None.
End more.

(** ** The library of a user

    The pages send their requests in the session of the signed-in user:
    [auth.uid()] is [user.id]. *)

(** What the page shows after a request. *)
Inductive toast :=
  | toast_success
  | toast_error
  | toast_login_required.

(** The row both "add to library" buttons insert:
    [{ user_id: user.id, course_id: courseId, completed: false }]; the
    database fills in [added_at] with [now()] and leaves [completed_at]
    null. *)
Definition new_enrollment (user courseId : uuid) (now : timestamptz)
    : user_courses.Row :=
  user_courses.mk user courseId now (Some false) None.

(** [addToLibrary(courseId)] of the browse page; [userLibrary] is the set
    of course ids the page believes to be in the library, [id] the key
    [gen_random_uuid()] draws. *)
Definition addToLibrary (user : option uuid) (courseId : uuid) (id : uuid)
    (now : timestamptz) (userLibrary : gset uuid) (db : database)
    : toast * gset uuid * database :=
  match user with
  | None => (toast_login_required, userLibrary, db)
  | Some uid =>
      match exec (InsertUserCourse id (new_enrollment uid courseId now)) db with
      | Err _ => (toast_error, userLibrary, db)
      | Ok db' => (toast_success, userLibrary ∪ {[courseId]}, db')
      end
  end.

(** [removeCourseFromLibrary(userCourseId)] of the library page:
    [.delete().eq('id', userCourseId).eq('user_id', user?.id)]. *)
Definition removeCourseFromLibrary (user : option uuid) (userCourseId : uuid)
    (db : database) : toast * database :=
  match user with
  | None => (toast_error, db)
  | Some uid =>
      match tbl_user_courses db !! userCourseId with
      | None => (toast_success, db)
      | Some old =>
          if decide (user_courses.user_id old = uid)
          then match exec (DeleteUserCourse userCourseId) db with
               | Ok db' => (toast_success, db')
               | Err _ => (toast_error, db)
               end
          else (toast_success, db)
      end
  end.

(** [.single()]: the row of a result that has exactly one, an error
    otherwise. *)
Definition single {A} (rows : list A) : option A :=
  match rows with
  | [x] => Some x
  | _ => None
  end.

(** [.from('user_courses').select('id, completed').eq('user_id', user.id)
     .eq('course_id', courseId)] *)
Definition select_enrollment (user courseId : uuid) (db : database)
    : list (uuid * user_courses.Row) :=
  map_to_list
    (filter (λ kv, user_courses.user_id kv.2 = user
                   ∧ user_courses.course_id kv.2 = courseId)
       (tbl_user_courses db)).

(** [checkLibraryStatus()] of the course page: [inLibrary] and the two
    fields of [Learn.State].  A null [completed] is a false flag to every
    reader of the page state. *)
Definition checkLibraryStatus (user courseId : uuid) (db : database)
    : bool * Learn.State :=
  match single (select_enrollment user courseId db) with
  | Some (id, r) =>
      (true, Learn.mk (Some id)
               (bool_decide (user_courses.completed r = Some true)))
  | None => (false, Learn.mk None false)
  end.

(** [handleAddToLibrary()] of the course page: nothing without a user or a
    course id; an error of the insert is dropped; after a success the page
    sets [inLibrary] and reads its state back with [checkLibraryStatus]. *)
Definition handleAddToLibrary (user : option uuid) (courseId : option uuid)
    (id : uuid) (now : timestamptz) (page : bool * Learn.State)
    (db : database) : bool * Learn.State * database :=
  match user, courseId with
  | Some uid, Some (String a c) =>
      match exec (InsertUserCourse id
                    (new_enrollment uid (String a c) now)) db with
      | Err _ => (page, db)
      | Ok db' => (checkLibraryStatus uid (String a c) db', db')
      end
  | _, _ => (page, db)
  end.

(** ** Tags of a course

    The upload and edit forms keep the tags in one text field.  A form
    string is taken here as its sequence of UTF-16 code units, the unit
    [split], [trim] and [join] work on. *)
Abbreviation js_string := (list N).

Definition comma : N := 44.
Definition space : N := 32.

(** The code points [trim] removes: WhiteSpace (TAB, VT, FF, SP, NBSP,
    ZWNBSP and the space separators U+1680, U+2000..U+200A, U+202F, U+205F,
    U+3000) and LineTerminator (LF, CR, LS, PS). *)
Definition is_space (c : N) : bool :=
  existsb (N.eqb c)
    [9; 10; 11; 12; 13; 32; 160; 5760; 8232; 8233; 8239; 8287; 12288;
     65279]%N
  || (N.leb 8192 c && N.leb c 8202).

Fixpoint js_trimStart (s : js_string) : js_string :=
  match s with
  | [] => []
  | c :: s' => if is_space c then js_trimStart s' else s
  end.

Fixpoint js_trimEnd (s : js_string) : js_string :=
  match s with
  | [] => []
  | c :: s' =>
      match js_trimEnd s' with
      | [] => if is_space c then [] else [c]
      | w => c :: w
      end
  end.

(** [s.trim()] *)
Definition js_trim (s : js_string) : js_string := js_trimEnd (js_trimStart s).

(** [s.split(',')]: the pieces between the commas, one more than there
    are commas. *)
Fixpoint js_split (s : js_string) : list js_string :=
  match s with
  | [] => [[]]
  | c :: s' =>
      if N.eqb c comma then [] :: js_split s'
      else match js_split s' with
           | w :: ws => (c :: w) :: ws
           | [] => [[c]]
           end
  end.

(** [l.join(', ')] *)
Fixpoint js_join (l : list js_string) : js_string :=
  match l with
  | [] => []
  | [w] => w
  | w :: ws => w ++ comma :: space :: js_join ws
  end.

(** [formData.tags.split(',').map(tag => tag.trim())
     .filter(tag => tag.length > 0)] *)
Definition tagsArray (tags : js_string) : list js_string :=
  filter (λ tag, (0 < length tag)%nat) (js_trim <$> js_split tags).

(** The [tags] column both forms send:
    [tagsArray.length > 0 ? tagsArray : null]. *)
Definition tags_of_form (tags : js_string) : option (list js_string) :=
  match tagsArray tags with
  | [] => None
  | l => Some l
  end.

(** The field the edit form starts with:
    [course.tags ? course.tags.join(', ') : '']. *)
Definition form_of_tags (tags : option (list js_string)) : js_string :=
  match tags with
  | Some l => js_join l
  | None => []
  end.

(** A tag as the forms store it: not empty, without a comma, without
    white space at either end. *)
Definition clean_tag (tag : js_string) : Prop :=
  tag ≠ [] ∧ (comma ∉ tag) ∧ js_trim tag = tag.

#[global] Instance clean_tag_dec tag : Decision (clean_tag tag).
Proof. unfold clean_tag. apply _. Defined.

(** ** The avatar seed

    The profile page keeps a seed, stores the avatar address made from it
    and, on loading, reads the seed back out of the stored address. *)

(** [s] without the prefix [p], when it starts with it. *)
Fixpoint strip_prefix (p s : string) : option string :=
  match p, s with
  | EmptyString, _ => Some s
  | String a p', String b s' =>
      if decide (a = b) then strip_prefix p' s' else None
  | String _ _, EmptyString => None
  end.

(** The longest run of characters other than ["&"] at the start of [s]:
    what the group of the pattern, any number of characters that are not
    ["&"], takes. *)
Fixpoint until_amp (s : string) : string :=
  match s with
  | EmptyString => EmptyString
  | String c s' =>
      if decide (c = "&"%char) then EmptyString else String c (until_amp s')
  end.

(** The first group of [avatar_url.match(..)] for the pattern ["seed="]
    followed by that group: what follows the leftmost ["seed="], up to the
    next ["&"]. *)
Fixpoint match_seed (url : string) : option string :=
  match strip_prefix "seed=" url with
  | Some rest => Some (until_amp rest)
  | None =>
      match url with
      | EmptyString => None
      | String _ url' => match_seed url'
      end
  end.

(** The seed [fetchProfile] puts in the form: from the stored address when
    there is one and it matches, the user id otherwise. *)
Definition seed_of_avatar (avatar_url : option string) (user_id : uuid)
    : string :=
  match avatar_url with
  | Some (String a u) =>
      match match_seed (String a u) with
      | Some seed => seed
      | None => user_id
      end
  | _ => user_id
  end.

(** [.from('profiles').select('*').eq('user_id', user.id)] *)
Definition select_profile (user : uuid) (db : database)
    : list (uuid * profiles.Row) :=
  map_to_list (filter (λ kv, profiles.user_id kv.2 = user) (tbl_profiles db)).

(** [fetchProfile()] of the profile page: the two form fields [fullName]
    and [avatarSeed], or nothing but an error when [.single()] fails. *)
Definition fetchProfile (user : uuid) (db : database)
    : option (string * string) :=
  match single (select_profile user db) with
  | Some (_, p) =>
      Some (default "" (profiles.full_name p),
            seed_of_avatar (profiles.avatar_url p) user)
  | None => None
  end.

(** ** The dashboard *)
Module Dashboard.
Record ProfileStats := mk {
  completed : Z;
  enrolled : Z;
  uploads : Z
}.
End Dashboard.

(** The statistics [fetchDashboardData()] puts on the dashboard: the
    counters of the profile row, a null one shown as 0; when the profile
    cannot be read, the numbers counted from the enrollments and uploads
    the page has just fetched.  The order of the fetched rows does not
    enter the statistics. *)
Definition fetchDashboardData (user : uuid) (db : database)
    : Dashboard.ProfileStats :=
  let enrolledData :=
    map_to_list (filter (λ kv, user_courses.user_id kv.2 = user)
                   (tbl_user_courses db)) in
  let uploadedData :=
    map_to_list (filter (λ kv, courses.uploader_id kv.2 = user)
                   (tbl_courses db)) in
  match single (select_profile user db) with
  | None =>
      Dashboard.mk
        (Z.of_nat (length (filter (λ uc, user_courses.completed uc.2 = Some true)
                             enrolledData)))
        (Z.of_nat (length enrolledData))
        (Z.of_nat (length uploadedData))
  | Some (_, p) =>
      Dashboard.mk (default 0%Z (profiles.completed p))
        (default 0%Z (profiles.enrolled p))
        (default 0%Z (profiles.uploads p))
  end.

(** ** Deleting a course from the dashboard *)

(** [DELETE FROM public.user_courses WHERE ..], which may remove several
    rows: the rows leave the table, then the row trigger runs once for each
    of them. *)
Definition delete_user_courses_where (P : user_courses.Row → Prop)
    `{!∀ r, Decision (P r)} (db : database) : result database :=
  foldr (λ kv acc, acc ≫= trigger_update_profile_stats (TgDelete kv.2))
    (Ok (with_user_courses db
           (filter (λ kv, ¬ P kv.2) (tbl_user_courses db))))
    (map_to_list (filter (λ kv, P kv.2) (tbl_user_courses db))).

(** [handleDeleteCourse(courseId)]; [confirmed] is the answer to
    [window.confirm].  Two requests, each a transaction of its own: the
    enrollments of the course are deleted first, that is those the delete
    policy lets this session see, with the error of the request not looked
    at; then the course, filtered by [id] and [uploader_id].  The page
    shows a toast for the second request only. *)
Definition handleDeleteCourse (user : option uuid) (confirmed : bool)
    (courseId : uuid) (db : database) : option toast * database :=
  if confirmed then
    let db1 :=
      commit (delete_user_courses_where
                (λ r, user_courses.course_id r = courseId
                      ∧ policy.own_user_course user r) db) db in
    match user with
    | None => (Some toast_error, db1)
    | Some uid =>
        match
          match tbl_courses db1 !! courseId with
          | Some old =>
              if decide (courses.uploader_id old = uid)
              then exec (DeleteCourse courseId) db1 else Ok db1
          | None => Ok db1
          end
        with
        | Ok db2 => (Some toast_success, db2)
        | Err _ => (Some toast_error, db1)
        end
    end
  else (None, db).

(** [user-b] enrolls in the first course of [user-a] as well. *)
Module shared.
Definition db : database :=
  run [InsertUserCourse "enrol-b"
         (new_enrollment "user-b" "course-1" "2025-07-01T10:00:00Z")]
    sample.enrolled.
End shared.

(** ** Integrity of the tables *)

(** Every foreign key points at a row that is there. *)
Definition referential_integrity (db : database) : Prop :=
  map_Forall (λ _ r, user_courses.user_id r ∈ auth_users db
                     ∧ is_Some (tbl_courses db !! user_courses.course_id r))
    (tbl_user_courses db)
  ∧ map_Forall (λ _ c, courses.uploader_id c ∈ auth_users db
                       ∧ has_profile (courses.uploader_id c) db)
      (tbl_courses db)
  ∧ map_Forall (λ _ p, profiles.user_id p ∈ auth_users db) (tbl_profiles db).

(** [UNIQUE(user_id, course_id)] on [user_courses] and [UNIQUE] on
    [profiles.user_id]. *)
Definition keys_unique (db : database) : Prop :=
  (∀ k1 k2 r1 r2,
     tbl_user_courses db !! k1 = Some r1 → tbl_user_courses db !! k2 = Some r2 →
     user_courses.user_id r1 = user_courses.user_id r2 →
     user_courses.course_id r1 = user_courses.course_id r2 → k1 = k2)
  ∧ (∀ k1 k2 p1 p2,
       tbl_profiles db !! k1 = Some p1 → tbl_profiles db !! k2 = Some p2 →
       profiles.user_id p1 = profiles.user_id p2 → k1 = k2).

(** The checks a statement has passed when it changed a row. *)
Definition accepted (st : statement) (db : database) : Prop :=
  match st with
  | InsertUserCourse id new =>
      tbl_user_courses db !! id = None
      ∧ ¬ pair_taken id new (tbl_user_courses db)
      ∧ user_courses.user_id new ∈ auth_users db
      ∧ is_Some (tbl_courses db !! user_courses.course_id new)
  | UpdateUserCourse id new =>
      ∃ old, tbl_user_courses db !! id = Some old
             ∧ ¬ pair_taken id new (tbl_user_courses db)
             ∧ (user_courses.user_id new = user_courses.user_id old
                ∨ user_courses.user_id new ∈ auth_users db)
             ∧ (user_courses.course_id new = user_courses.course_id old
                ∨ is_Some (tbl_courses db !! user_courses.course_id new))
  | DeleteUserCourse _ => True
  | InsertCourse id new =>
      tbl_courses db !! id = None
      ∧ courses.uploader_id new ∈ auth_users db
      ∧ has_profile (courses.uploader_id new) db
  | UpdateCourse id new =>
      ∃ old, tbl_courses db !! id = Some old
             ∧ (courses.uploader_id new = courses.uploader_id old
                ∨ (courses.uploader_id new ∈ auth_users db
                   ∧ has_profile (courses.uploader_id new) db))
  | DeleteCourse id => ¬ course_referenced id db
  end.

(** ** Direct statements on [profiles]

    The profile form is not the only way to a profile row: the policies
    let a session send an [INSERT] or an [UPDATE] of its own row with any
    columns.  [profiles] has no trigger. *)

(** An [INTEGER] column holds [NULL] or a value of 32 bits. *)
Definition int4 (v : option Z) : Prop :=
  match v with
  | Some n => (int4_min ≤ n ≤ int4_max)%Z
  | None => True
  end.

#[global] Instance int4_dec v : Decision (int4 v).
Proof. destruct v; simpl; apply _. Defined.

Definition counters_int4 (p : profiles.Row) : Prop :=
  int4 (profiles.completed p) ∧ int4 (profiles.enrolled p)
  ∧ int4 (profiles.uploads p).

(** [user_id .. UNIQUE]: another row holds the [user_id] of [new]. *)
Definition user_id_taken (id : uuid) (new : profiles.Row)
    (t : gmap uuid profiles.Row) : Prop :=
  map_Exists (λ k p, k ≠ id ∧ profiles.user_id p = profiles.user_id new) t.

(** [fk_courses_uploader_profiles], seen from [profiles]: a course names
    [u] as its uploader. *)
Definition uploader_referenced (u : uuid) (db : database) : Prop :=
  map_Exists (λ _ c, courses.uploader_id c = u) (tbl_courses db).

(** [INSERT INTO public.profiles]; [new] is the row with the defaults
    filled in. *)
Definition insert_profiles (id : uuid) (new : profiles.Row) (db : database)
    : result database :=
  check (counters_int4 new) numeric_value_out_of_range;;
  check (tbl_profiles db !! id = None) unique_violation;;
  check (¬ has_profile (profiles.user_id new) db) unique_violation;;
  check (profiles.user_id new ∈ auth_users db) foreign_key_violation;;
  Ok (with_profiles db (<[id:=new]> (tbl_profiles db))).

(** [UPDATE public.profiles SET .. WHERE id = id]: [new] is the row image
    after the assignment.  A [user_id] that courses refer to cannot
    change. *)
Definition update_profiles (id : uuid) (new : profiles.Row) (db : database)
    : result database :=
  match tbl_profiles db !! id with
  | None => Ok db
  | Some old =>
      check (counters_int4 new) numeric_value_out_of_range;;
      check (¬ user_id_taken id new (tbl_profiles db)) unique_violation;;
      check (profiles.user_id new = profiles.user_id old
             ∨ profiles.user_id new ∈ auth_users db)
        foreign_key_violation;;
      check (profiles.user_id new = profiles.user_id old
             ∨ ¬ uploader_referenced (profiles.user_id old) db)
        foreign_key_violation;;
      Ok (with_profiles db (<[id:=new]> (tbl_profiles db)))
  end.

(** [DELETE FROM public.profiles WHERE id = id] *)
Definition delete_profiles (id : uuid) (db : database) : result database :=
  match tbl_profiles db !! id with
  | None => Ok db
  | Some old =>
      check (¬ uploader_referenced (profiles.user_id old) db)
        foreign_key_violation;;
      Ok (with_profiles db (delete id (tbl_profiles db)))
  end.

Inductive profile_statement :=
  | InsertProfile (id : uuid) (new : profiles.Row)
  | UpdateProfile (id : uuid) (new : profiles.Row)
  | DeleteProfile (id : uuid).

Definition exec_profile (ps : profile_statement) (db : database)
    : result database :=
  match ps with
  | InsertProfile id new => insert_profiles id new db
  | UpdateProfile id new => update_profiles id new db
  | DeleteProfile id => delete_profiles id db
  end.

(** The three counters of two rows are the same. *)
Definition same_counters (p q : profiles.Row) : Prop :=
  profiles.completed p = profiles.completed q
  ∧ profiles.enrolled p = profiles.enrolled q
  ∧ profiles.uploads p = profiles.uploads q.

(** The counters of a row are at their column default. *)
Definition default_counters (p : profiles.Row) : Prop :=
  profiles.completed p = Some 0%Z ∧ profiles.enrolled p = Some 0%Z
  ∧ profiles.uploads p = Some 0%Z.

(** The statement leaves the counter columns alone: an [INSERT] stores
    their default, an [UPDATE] stores what the row had. *)
Definition keeps_counters (ps : profile_statement) (db : database) : Prop :=
  match ps with
  | InsertProfile _ new => default_counters new
  | UpdateProfile id new =>
      match tbl_profiles db !! id with
      | Some old => same_counters new old
      | None => True
      end
  | DeleteProfile _ => True
  end.

#[global] Instance keeps_counters_dec ps db : Decision (keeps_counters ps db).
Proof.
  destruct ps; simpl; unfold default_counters, same_counters;
    try case_match; apply _.
Defined.

Definition any_profile_statement (ps : profile_statement) (db : database)
    : Prop := True.

(** The databases produced from the empty one by the writes of
    [reachable] and by the direct statements on [profiles] that [W]
    admits. *)
Inductive attainable (W : profile_statement → database → Prop)
    : database → Prop :=
  | attainable_empty : attainable W empty_db
  | attainable_exec st db db' :
      attainable W db → exec st db = Ok db' → attainable W db'
  | attainable_sign_up new_id meta_full_name id now db db' :
      attainable W db →
      insert_auth_users new_id meta_full_name id now db = Ok db' →
      attainable W db'
  | attainable_updateProfile user fullName avatarSeed now db db' :
      attainable W db →
      updateProfile user fullName avatarSeed now db = Ok db' →
      attainable W db'
  | attainable_profile ps db db' :
      attainable W db → W ps db → exec_profile ps db = Ok db' →
      attainable W db'.

(** A direct statement on [profiles] sent by a session.  "Users can insert
    own profile" checks the new row, "Users can update own profile" the
    old row and the new one; there is no [DELETE] policy, so a [DELETE]
    sees no row. *)
Definition exec_profile_as (uid : option uuid) (ps : profile_statement)
    (db : database) : outcome :=
  match ps with
  | InsertProfile _ new =>
      if decide (policy.own_profile uid new) then Ran (exec_profile ps db)
      else Denied
  | UpdateProfile id new =>
      match tbl_profiles db !! id with
      | None => Ran (Ok db)
      | Some old =>
          if decide (policy.own_profile uid old)
          then if decide (policy.own_profile uid new)
               then Ran (exec_profile ps db) else Denied
          else Ran (Ok db)
      end
  | DeleteProfile _ => Ran (Ok db)
  end.

(** What a session can ask of the three tables. *)
Inductive request :=
  | OnRow (st : statement)
  | OnProfile (ps : profile_statement).

Definition request_as (uid : option uuid) (req : request) (db : database)
    : outcome :=
  match req with
  | OnRow st => exec_as uid st db
  | OnProfile ps => exec_profile_as uid ps db
  end.

Definition commit_request (uid : option uuid) (req : request)
    (db : database) : database :=
  match request_as uid req db with
  | Ran r => commit r db
  | Denied => db
  end.

(** Requests of several sessions, one after the other. *)
Definition run_requests (reqs : list (option uuid * request))
    (db : database) : database :=
  foldl (λ d req, commit_request req.1 req.2 d) db reqs.

(** No request of the sequence, run from [db], writes a counter of a
    profile row. *)
Fixpoint counters_untouched (reqs : list (option uuid * request))
    (db : database) : Prop :=
  match reqs with
  | [] => True
  | req :: reqs =>
      match req.2 with
      | OnRow _ => True
      | OnProfile ps => keeps_counters ps db
      end
      ∧ counters_untouched reqs (commit_request req.1 req.2 db)
  end.

#[global] Instance counters_untouched_dec reqs db :
  Decision (counters_untouched reqs db).
Proof.
  revert db. induction reqs as [|[uid [st|ps]] reqs IH]; intros db; simpl;
    apply _.
Defined.

(** [user-a] writes to their own profile row: a new role, and a
    [completed] counter of -1. *)
Module direct.
Definition promotion : profiles.Row :=
  profiles.mk "user-a" (Some "Ann") None profiles.premium
    "2025-06-27T09:00:00Z" "2025-07-02T09:00:00Z"
    (Some 1%Z) (Some 2%Z) (Some 2%Z).

Definition promote : profile_statement := UpdateProfile "profile-a" promotion.

Definition promoted : database :=
  commit (exec_profile promote sample.reassigned) sample.reassigned.

Definition overdraw : profile_statement :=
  UpdateProfile "profile-a"
    (profiles.mk "user-a" (Some "Ann") None profiles.user
       "2025-06-27T09:00:00Z" "2025-07-02T09:00:00Z"
       (Some (-1)%Z) (Some 0%Z) (Some 0%Z)).

Definition overdrawn : database :=
  commit (exec_profile overdraw sample.first_sign_up) sample.first_sign_up.
End direct.

(** * Properties *)

(** ** The result monad *)

Lemma result_bind_Ok {A B} (f : A → result B) (m : result A) (b : B) :
  m ≫= f = Ok b ↔ ∃ a, m = Ok a ∧ f a = Ok b.
Proof.
  destruct m as [a|e]; simpl; split.
  - eauto.
  - by intros (a' & [= ->] & ?).
  - done.
  - by intros (a' & ? & ?).
Qed.

Lemma result_bind_ret {A} (m : result A) : m ≫= Ok = m.
Proof. by destruct m. Qed.

Lemma check_Ok (P : Prop) `{!Decision P} e u : check P e = Ok u ↔ P.
Proof. unfold check. destruct u. case_decide; naive_solver. Qed.

(** ** [update_profile_stats] *)

Lemma set_stats_where_user_id u c e n p :
  profiles.user_id (set_stats_where u c e n p) = profiles.user_id p.
Proof. unfold set_stats_where. by case_decide. Qed.

(** A later [SET] overwrites an earlier one. *)
Lemma set_stats_where_absorb u c e n c' e' n' p :
  set_stats_where u c' e' n' (set_stats_where u c e n p)
  = set_stats_where u c' e' n' p.
Proof. unfold set_stats_where. by repeat (case_decide; simpl). Qed.

Lemma set_stats_where_other U V c e n p :
  profiles.user_id p = U → U ≠ V → set_stats_where (Some V) c e n p = p.
Proof.
  intros Hu HUV. unfold set_stats_where, sql_eq.
  rewrite decide_False; [done|]. congruence.
Qed.

Lemma fmap_absorb {A} (f g : A → A) (m : gmap uuid A) :
  (∀ x, f (g x) = f x) → f <$> (g <$> m) = f <$> m.
Proof.
  intros Hf. apply map_eq. intros i. rewrite !lookup_fmap.
  destruct (m !! i); simpl; by f_equal.
Qed.

Lemma recomputed_lookup u db id :
  recomputed u db !! id
  = set_stats_where u (count_completed u (tbl_user_courses db))
      (count_enrolled u (tbl_user_courses db))
      (count_uploads u (tbl_courses db)) <$> tbl_profiles db !! id.
Proof. unfold recomputed. by rewrite lookup_fmap. Qed.

Lemma recomputed_no_target u db :
  ¬ map_Exists (λ _ p, sql_eq (profiles.user_id p) u) (tbl_profiles db) →
  recomputed u db = tbl_profiles db.
Proof.
  intros Hno. apply map_eq. intros id. rewrite recomputed_lookup.
  destruct (tbl_profiles db !! id) as [p|] eqn:Hp; [|done]. simpl.
  unfold set_stats_where. case_decide; [|done]. destruct Hno. by exists id, p.
Qed.

Lemma with_profiles_id db : with_profiles db (tbl_profiles db) = db.
Proof. by destruct db. Qed.

Lemma to_int4_Ok n c : to_int4 n = Ok c → c = n.
Proof. unfold to_int4. case_decide; [by intros [= ->]|done]. Qed.

(** What a successful call returns. *)
Lemma update_profile_stats_Ok u db db' :
  update_profile_stats u db = Ok db' →
  db' = with_profiles db (recomputed u db).
Proof.
  unfold update_profile_stats. case_decide as Hex.
  - destruct (to_int4 (count_completed _ _)) as [c|] eqn:Hc; [|done].
    destruct (to_int4 (count_enrolled _ _)) as [e|] eqn:He; [|done].
    destruct (to_int4 (count_uploads _ _)) as [n|] eqn:Hn; [|done].
    apply to_int4_Ok in Hc as ->. apply to_int4_Ok in He as ->.
    apply to_int4_Ok in Hn as ->. by intros [= <-].
  - intros [= <-]. by rewrite recomputed_no_target, with_profiles_id.
Qed.

Lemma update_profile_stats_tables u db db' :
  update_profile_stats u db = Ok db' →
  auth_users db' = auth_users db
  ∧ tbl_courses db' = tbl_courses db
  ∧ tbl_user_courses db' = tbl_user_courses db.
Proof. by intros ->%update_profile_stats_Ok. Qed.

(** The outcome of a call does not depend on the counters stored before
    it: a database whose profile table was rewritten by some earlier [SET]
    for the same user gives the same result. *)
Lemma update_profile_stats_absorb u c e n db :
  update_profile_stats u
    (with_profiles db (set_stats_where u c e n <$> tbl_profiles db))
  = update_profile_stats u db.
Proof.
  unfold update_profile_stats. simpl.
  assert (map_Exists (λ _ p, sql_eq (profiles.user_id p) u)
            (set_stats_where u c e n <$> tbl_profiles db)
          ↔ map_Exists (λ _ p, sql_eq (profiles.user_id p) u)
              (tbl_profiles db)) as Hiff.
  { split.
    - intros (id & p & Hp & Hu). rewrite lookup_fmap in Hp.
      destruct (tbl_profiles db !! id) as [q|] eqn:Hq; [|done].
      simpl in Hp. simplify_eq. rewrite set_stats_where_user_id in Hu.
      by exists id, q.
    - intros (id & p & Hp & Hu). exists id, (set_stats_where u c e n p).
      rewrite lookup_fmap, Hp. split; [done|].
      by rewrite set_stats_where_user_id. }
  destruct (decide (map_Exists _ (tbl_profiles db))) as [Hex|Hex].
  - rewrite decide_True by by apply Hiff.
    destruct (to_int4 (count_completed _ _)) as [c'|]; [|done].
    destruct (to_int4 (count_enrolled _ _)) as [e'|]; [|done].
    destruct (to_int4 (count_uploads _ _)) as [n'|]; [|done].
    simpl. unfold with_profiles; simpl. do 2 f_equal.
    apply fmap_absorb. intros p. apply set_stats_where_absorb.
  - rewrite decide_False by (by rewrite Hiff).
    destruct db as [au tp tc tu]; unfold with_profiles; simpl in *.
    do 2 f_equal. apply map_eq. intros id. rewrite lookup_fmap.
    destruct (tp !! id) as [p|] eqn:Hp; [|done]. simpl.
    unfold set_stats_where. case_decide; [|done]. destruct Hex. by exists id, p.
Qed.

Lemma update_profile_stats_fixpoint u db d :
  update_profile_stats u db = Ok d → update_profile_stats u d = Ok d.
Proof.
  intros Hd. pose proof (update_profile_stats_Ok _ _ _ Hd) as ->.
  unfold recomputed. by rewrite update_profile_stats_absorb.
Qed.

(** After a successful call the rows of the user carry the live counts. *)
Lemma update_profile_stats_counts U db d id p :
  update_profile_stats (Some U) db = Ok d →
  tbl_profiles d !! id = Some p → profiles.user_id p = U →
  profiles.completed p = Some (count_completed (Some U) (tbl_user_courses db))
  ∧ profiles.enrolled p = Some (count_enrolled (Some U) (tbl_user_courses db))
  ∧ profiles.uploads p = Some (count_uploads (Some U) (tbl_courses db)).
Proof.
  intros ->%update_profile_stats_Ok. simpl. rewrite recomputed_lookup.
  destruct (tbl_profiles db !! id) as [q|]; [|done]. simpl.
  intros [= <-]. unfold set_stats_where. case_decide as Hq; [done|].
  intros Hu. destruct Hq. unfold sql_eq. by rewrite Hu.
Qed.


(** C3. Calling [update_profile_stats] a second time, nothing else having
    changed, gives back the database of the first call; and the counters a
    call leaves on the rows of a user are determined by the rows of
    [user_courses] and [courses] alone. *)
Theorem update_profile_stats_idempotent (U : uuid) (db : database) :
  update_profile_stats (Some U) db ≫= update_profile_stats (Some U)
    = update_profile_stats (Some U) db
  ∧ ∀ db2 d d2 id id2 p p2,
      tbl_user_courses db2 = tbl_user_courses db →
      tbl_courses db2 = tbl_courses db →
      update_profile_stats (Some U) db = Ok d →
      update_profile_stats (Some U) db2 = Ok d2 →
      tbl_profiles d !! id = Some p → profiles.user_id p = U →
      tbl_profiles d2 !! id2 = Some p2 → profiles.user_id p2 = U →
      same_stats p2 p.
Proof.
  split.
  - destruct (update_profile_stats (Some U) db) as [d|e] eqn:Hd; [|done].
    simpl. by apply (update_profile_stats_fixpoint _ db).
  - intros db2 d d2 id id2 p p2 Huc Hc Hd Hd2 Hp Hu Hp2 Hu2.
    destruct (update_profile_stats_counts _ _ _ _ _ Hd Hp Hu) as (?&?&?).
    destruct (update_profile_stats_counts _ _ _ _ _ Hd2 Hp2 Hu2) as (?&?&?).
    unfold same_stats. rewrite Huc, Hc in *. by repeat split; congruence.
Qed.

(** C6. For an identity without a profile row the [UPDATE] matches zero
    rows, and the call succeeds and returns the database it was given. *)
Theorem update_profile_stats_no_profile (U : uuid) (db : database) :
  ¬ has_profile U db →
  count_where (λ p, sql_eq (profiles.user_id p) (Some U)) (tbl_profiles db)
    = 0%Z
  ∧ update_profile_stats (Some U) db = Ok db.
Proof.
  intros Hno.
  assert (¬ map_Exists (λ _ p, sql_eq (profiles.user_id p) (Some U))
              (tbl_profiles db)) as Hno'.
  { intros (id & p & Hp & Hu). apply Hno. exists id, p. split; [done|].
    unfold sql_eq in Hu. by simplify_eq. }
  split.
  - unfold count_where.
    rewrite map_empty_filter_2; [done|].
    intros id p Hp Hu. apply Hno'. by exists id, p.
  - unfold update_profile_stats. by rewrite decide_False.
Qed.

(** C9. A call leaves [auth.users], [courses] and [user_courses] as they
    were, adds or removes no profile row, leaves the rows of other users
    untouched and changes nothing but the three counters of the rows of its
    user. *)
Theorem update_profile_stats_frame (u : option uuid) (db : database) :
  let db' := commit (update_profile_stats u db) db in
  auth_users db' = auth_users db
  ∧ tbl_courses db' = tbl_courses db
  ∧ tbl_user_courses db' = tbl_user_courses db
  ∧ ∀ id,
      option_Forall2
        (λ p p', same_but_stats p p'
                 ∧ (¬ sql_eq (profiles.user_id p) u → p' = p))
        (tbl_profiles db !! id) (tbl_profiles db' !! id).
Proof.
  simpl. destruct (update_profile_stats u db) as [d|e] eqn:Hd; simpl.
  - apply update_profile_stats_Ok in Hd as ->. simpl.
    repeat split. intros id. rewrite recomputed_lookup.
    destruct (tbl_profiles db !! id) as [p|]; constructor.
    unfold set_stats_where. case_decide; by repeat split.
  - repeat split. intros id.
    destruct (tbl_profiles db !! id) as [p|]; by constructor.
Qed.

(** ** Counting *)

Section count_where.
Context {A : Type} (P : A → Prop) `{!∀ x, Decision (P x)}.
Implicit Types t : gmap uuid A.

Lemma count_where_nonneg t : (0 ≤ count_where P t)%Z.
Proof. unfold count_where. lia. Qed.

(** Writing a row that does not count over one that did not count. *)
Lemma count_where_insert_other t id new :
  ¬ P new → (∀ old, t !! id = Some old → ¬ P old) →
  count_where P (<[id:=new]> t) = count_where P t.
Proof.
  intros Hnew Hold. unfold count_where.
  by rewrite map_filter_insert_not'.
Qed.

Lemma count_where_delete_other t id :
  (∀ old, t !! id = Some old → ¬ P old) →
  count_where P (delete id t) = count_where P t.
Proof.
  intros Hold. unfold count_where. by rewrite map_filter_delete_not.
Qed.

(** Rewriting a row without changing whether it counts. *)
Lemma count_where_insert_same t id old new :
  t !! id = Some old → (P old ↔ P new) →
  count_where P (<[id:=new]> t) = count_where P t.
Proof.
  intros Hid Hiff. destruct (decide (P new)) as [Hnew|Hnew].
  - unfold count_where. rewrite map_filter_insert_True by done.
    rewrite map_size_insert_Some; [done|]. exists old.
    apply map_lookup_filter_Some. split; [done|]. by apply Hiff.
  - apply count_where_insert_other; [done|].
    intros old' ?. simplify_eq. by rewrite Hiff.
Qed.

Lemma count_where_delete_insert t id new :
  t !! id = None → count_where P (delete id (<[id:=new]> t)) = count_where P t.
Proof. intros. by rewrite delete_insert_id. Qed.
End count_where.

(** ** What a statement does *)

Lemma trigger_update_profile_stats_eq tg db :
  trigger_update_profile_stats tg db
  = update_profile_stats
      (Some (user_courses.user_id
               (match tg with
                | TgInsert new | TgUpdate _ new => new
                | TgDelete old => old
                end))) db.
Proof.
  unfold trigger_update_profile_stats.
  destruct tg; simpl; rewrite ?decide_True by auto;
    rewrite ?decide_False by (intros [?|?]; discriminate);
    simpl; by rewrite ?result_bind_ret.
Qed.

Lemma trigger_update_upload_stats_eq tg db :
  trigger_update_upload_stats tg db
  = update_profile_stats
      (Some (courses.uploader_id
               (match tg with
                | TgInsert new | TgUpdate _ new => new
                | TgDelete old => old
                end))) db.
Proof.
  unfold trigger_update_upload_stats.
  destruct tg; simpl; rewrite ?decide_True by auto;
    rewrite ?decide_False by (intros [?|?]; discriminate);
    simpl; by rewrite ?result_bind_ret.
Qed.

Lemma sql_eq_Some col U : sql_eq col (Some U) ↔ col = U.
Proof. unfold sql_eq. naive_solver. Qed.

(** An accepted statement either touched no row, or it changed one table
    at one key and then recomputed the statistics of the user its trigger
    was called for; the counts of every other user are as before, unless
    the statement took the row away from that user. *)
Lemma exec_inv st db db' :
  exec st db = Ok db' →
  (db' = db ∧ ∀ U, ¬ trigger_row_of U st db)
  ∨ ∃ V dbm,
      update_profile_stats (Some V) dbm = Ok db'
      ∧ trigger_row_of V st db
      ∧ tbl_profiles dbm = tbl_profiles db
      ∧ ∀ U, U ≠ V → ¬ reassigns U st db → counts_kept U db dbm.
Proof.
  destruct st as [id new|id new|id|id new|id new|id]; simpl.
  - unfold insert_user_courses. intros H.
    repeat (apply result_bind_Ok in H as ([] & ?%check_Ok & H)).
    rewrite trigger_update_profile_stats_eq in H.
    right. eexists _, _. split; [exact H|]. repeat split; simpl.
    + apply count_where_insert_other; [rewrite sql_eq_Some; congruence|].
      intros; simplify_eq.
    + apply count_where_insert_other; [rewrite sql_eq_Some; intuition congruence|].
      intros; simplify_eq.
  - unfold update_user_courses.
    destruct (tbl_user_courses db !! id) as [old|] eqn:Hold.
    2:{ intros [= <-]. left. split; [done|]. intros U [[] ?]. done. }
    intros H.
    repeat (apply result_bind_Ok in H as ([] & ?%check_Ok & H)).
    rewrite trigger_update_profile_stats_eq in H.
    right. eexists _, _. split; [exact H|]. repeat split; simpl; [by eexists|..].
    + apply count_where_insert_other; [rewrite sql_eq_Some; congruence|].
      intros; simplify_eq. rewrite sql_eq_Some. intuition congruence.
    + apply count_where_insert_other; [rewrite sql_eq_Some; intuition congruence|].
      intros; simplify_eq. rewrite sql_eq_Some. intuition congruence.
  - unfold delete_user_courses.
    destruct (tbl_user_courses db !! id) as [old|] eqn:Hold.
    2:{ intros [= <-]. left. split; [done|]. by intros U. }
    intros H. rewrite trigger_update_profile_stats_eq in H.
    right. eexists _, _. split; [exact H|]. repeat split; simpl.
    + apply count_where_delete_other.
      intros; simplify_eq. rewrite sql_eq_Some. intuition congruence.
    + apply count_where_delete_other.
      intros; simplify_eq. rewrite sql_eq_Some. intuition congruence.
  - unfold insert_courses. intros H.
    repeat (apply result_bind_Ok in H as ([] & ?%check_Ok & H)).
    rewrite trigger_update_upload_stats_eq in H.
    right. eexists _, _. split; [exact H|]. repeat split; simpl.
    apply count_where_insert_other; [rewrite sql_eq_Some; congruence|].
    intros; simplify_eq.
  - unfold update_courses.
    destruct (tbl_courses db !! id) as [old|] eqn:Hold.
    2:{ intros [= <-]. left. split; [done|]. intros U [[] ?]. done. }
    intros H.
    repeat (apply result_bind_Ok in H as ([] & ?%check_Ok & H)).
    rewrite trigger_update_upload_stats_eq in H.
    right. eexists _, _. split; [exact H|]. repeat split; simpl; [by eexists|].
    apply count_where_insert_other; [rewrite sql_eq_Some; congruence|].
    intros; simplify_eq. rewrite sql_eq_Some. intuition congruence.
  - unfold delete_courses.
    destruct (tbl_courses db !! id) as [old|] eqn:Hold.
    2:{ intros [= <-]. left. split; [done|]. by intros U. }
    intros H.
    repeat (apply result_bind_Ok in H as ([] & ?%check_Ok & H)).
    rewrite trigger_update_upload_stats_eq in H.
    right. eexists _, _. split; [exact H|]. repeat split; simpl.
    apply count_where_delete_other.
    intros; simplify_eq. rewrite sql_eq_Some. intuition congruence.
Qed.

(** ** The statistics invariant *)

Lemma trigger_row_of_inj U V st db :
  trigger_row_of U st db → trigger_row_of V st db → U = V.
Proof.
  destruct st; simpl; try congruence; try (intros [_ ?] [_ ?]; congruence).
  all: destruct (_ !! _); simpl; congruence.
Qed.

(** A successful recomputation for [U] puts the rows of [U] in sync. *)
Lemma update_profile_stats_establishes U dbm db' :
  update_profile_stats (Some U) dbm = Ok db' → stats_consistent U db'.
Proof.
  intros H id p Hp Hu.
  destruct (update_profile_stats_counts _ _ _ _ _ H Hp Hu) as (Hc & He & Hn).
  destruct (update_profile_stats_tables _ _ _ H) as (_ & Htc & Htu).
  unfold in_sync. by rewrite Hu, Htc, Htu.
Qed.

(** A successful recomputation for another user leaves the rows of [U]
    alone. *)
Lemma update_profile_stats_other U V dbm db' id p :
  U ≠ V → update_profile_stats (Some V) dbm = Ok db' →
  tbl_profiles db' !! id = Some p → profiles.user_id p = U →
  tbl_profiles dbm !! id = Some p.
Proof.
  intros HUV ->%update_profile_stats_Ok. simpl. rewrite recomputed_lookup.
  destruct (tbl_profiles dbm !! id) as [q|]; [|done]. simpl.
  intros [= <-]. rewrite set_stats_where_user_id. intros Hq.
  by rewrite (set_stats_where_other U V).
Qed.

Lemma exec_establishes U st db :
  fires_for U st db → stats_consistent U (commit (exec st db) db).
Proof.
  intros [[db' Hex] Hrow]. rewrite Hex. simpl.
  destruct (exec_inv _ _ _ Hex) as [[_ Hno]|(V & dbm & Hup & HV & _)].
  - by destruct (Hno U).
  - rewrite (trigger_row_of_inj _ _ _ _ Hrow HV).
    by eapply update_profile_stats_establishes.
Qed.

Lemma exec_preserves U st db :
  ¬ reassigns U st db → stats_consistent U db →
  stats_consistent U (commit (exec st db) db).
Proof.
  intros Hkeep Hsync. destruct (exec st db) as [db'|e] eqn:Hex; [|done].
  simpl.
  destruct (exec_inv _ _ _ Hex) as [[-> _]|(V & dbm & Hup & _ & Hprof & Hcnt)];
    [done|].
  destruct (decide (U = V)) as [->|HUV];
    [by eapply update_profile_stats_establishes|].
  intros id p Hp Hu.
  pose proof (update_profile_stats_other _ _ _ _ _ _ HUV Hup Hp Hu) as Hp0.
  rewrite Hprof in Hp0.
  destruct (Hsync id p Hp0 Hu) as (He & Hc & Hn).
  destruct (Hcnt U HUV Hkeep) as (He' & Hc' & Hn').
  destruct (update_profile_stats_tables _ _ _ Hup) as (_ & Htc & Htu).
  unfold in_sync. rewrite Hu in *. rewrite Htc, Htu.
  by rewrite He', Hc', Hn'.
Qed.

(** C1 (amended). Over any sequence of row mutations of [user_courses] and
    [courses] in which no UPDATE takes a row away from [U], the counters of
    [U] end equal to the live counts (enrollments, completed enrollments,
    uploads), provided they were equal before the sequence or one of its
    statements was accepted on a row of [U]. *)
Theorem stats_invariant (U : uuid) (sts : list statement) (db : database) :
  keeps_owner U sts db →
  stats_consistent U db ∨ fires_within U sts db →
  stats_consistent U (run sts db).
Proof.
  revert db. induction sts as [|st sts IH]; intros db Hkeep Hstart.
  - by destruct Hstart.
  - destruct Hkeep as [Hst Hkeep]. simpl. apply IH; [done|].
    destruct Hstart as [Hsync|[Hfire|Hlater]].
    + left. by apply exec_preserves.
    + left. by apply exec_establishes.
    + by right.
Qed.

(** [stats_invariant] at work: [user-a] enrolls twice and completes one
    course; each statement is accepted on a row of [user-a]. *)
Lemma stats_invariant_witness :
  stats_consistent "user-a" sample.enrolled.
Proof.
  apply (stats_invariant "user-a"
           [InsertUserCourse "enrol-1" (sample.enrollment "user-a" "course-1");
            InsertUserCourse "enrol-2" (sample.enrollment "user-a" "course-2");
            UpdateUserCourse "enrol-1"
              (user_courses.mk "user-a" "course-1" "2025-06-28T09:00:00Z"
                 (Some true) (Some "2025-06-29T12:00:00Z"))]
           sample.base).
  - apply (bool_decide_unpack _). vm_compute. exact I.
  - left. apply (bool_decide_unpack _). vm_compute. exact I.
Defined.

(** C1 as stated fails.  Starting from counters that are in sync, the
    accepted [UPDATE user_courses SET user_id = 'user-b' WHERE id =
    'enrol-1'] fires the trigger for [user-b] only: the profile of
    [user-a] still says two enrollments, one of them completed, while one
    incomplete enrollment is left. *)
Lemma stats_invariant_counterexample :
  stats_consistent "user-a" sample.enrolled
  ∧ exec sample.reassign sample.enrolled = Ok sample.reassigned
  ∧ profiles.enrolled <$> tbl_profiles sample.reassigned !! "profile-a"
    = Some (Some 2%Z)
  ∧ count_enrolled (Some "user-a") (tbl_user_courses sample.reassigned) = 1%Z
  ∧ profiles.completed <$> tbl_profiles sample.reassigned !! "profile-a"
    = Some (Some 1%Z)
  ∧ count_completed (Some "user-a") (tbl_user_courses sample.reassigned) = 0%Z
  ∧ ¬ stats_consistent "user-a" (run [sample.reassign] sample.enrolled).
Proof.
  split; [apply (bool_decide_unpack _); vm_compute; exact I|].
  repeat split; try (vm_compute; reflexivity).
  apply (bool_decide_eq_false_1 _). vm_compute. reflexivity.
Qed.

(** [update_profile_stats_idempotent] on the sample: a second database
    with the same rows but other stored counters ends with the same
    counters. *)
Lemma update_profile_stats_idempotent_witness :
  same_stats
    (profiles.mk "user-a" (Some "Ann") None profiles.user
       "2025-06-27T09:00:00Z" "2025-06-27T09:00:00Z"
       (Some 0%Z) (Some 1%Z) (Some 2%Z))
    (profiles.mk "user-a" (Some "Ann") None profiles.user
       "2025-06-27T09:00:00Z" "2025-06-27T09:00:00Z"
       (Some 0%Z) (Some 1%Z) (Some 2%Z)).
Proof.
  apply (proj2 (update_profile_stats_idempotent "user-a" sample.reassigned)
           sample.reassigned
           (commit (update_profile_stats (Some "user-a") sample.reassigned)
              sample.reassigned)
           (commit (update_profile_stats (Some "user-a") sample.reassigned)
              sample.reassigned)
           "profile-a" "profile-a");
    vm_compute; reflexivity.
Defined.

(** [update_profile_stats_no_profile] on the empty database. *)
(** [update_profile_stats_no_profile]: [user-c] never signed up. *)
Lemma update_profile_stats_no_profile_witness :
  count_where (λ p, sql_eq (profiles.user_id p) (Some "user-c"))
    (tbl_profiles sample.enrolled) = 0%Z
  ∧ update_profile_stats (Some "user-c") sample.enrolled = Ok sample.enrolled.
Proof.
  apply (update_profile_stats_no_profile "user-c" sample.enrolled).
  apply (bool_decide_unpack _). vm_compute. exact I.
Defined.

(** ** Deleting a course *)

(** C8. Deleting a course that some [user_courses] row references is
    rejected with a foreign-key violation, and the database is left as it
    was. *)
Theorem delete_courses_referenced (id : uuid) (db : database) :
  is_Some (tbl_courses db !! id) →
  course_referenced id db →
  exec (DeleteCourse id) db = Err foreign_key_violation
  ∧ commit (exec (DeleteCourse id) db) db = db.
Proof.
  intros [old Hold] Href. simpl. unfold delete_courses. rewrite Hold.
  unfold check. by rewrite decide_False by auto.
Qed.

Lemma delete_courses_referenced_witness :
  exec (DeleteCourse "course-1") sample.enrolled = Err foreign_key_violation
  ∧ commit (exec (DeleteCourse "course-1") sample.enrolled) sample.enrolled
    = sample.enrolled.
Proof.
  apply (delete_courses_referenced "course-1" sample.enrolled).
  - apply (bool_decide_unpack _). vm_compute. exact I.
  - apply (bool_decide_unpack _). vm_compute. exact I.
Defined.

(** ** The profile form *)

(** C10. [updateProfile] leaves [courses], [user_courses] and [auth.users]
    as they were, adds or removes no profile row, leaves the rows of other
    users untouched, and on the rows of its user keeps every column other
    than [full_name], [avatar_url] and [updated_at]: the three counters in
    particular. *)
Theorem updateProfile_frame (user : option uuid) (fullName avatarSeed : string)
    (now : timestamptz) (db : database) :
  let db' := commit (updateProfile user fullName avatarSeed now db) db in
  auth_users db' = auth_users db
  ∧ tbl_courses db' = tbl_courses db
  ∧ tbl_user_courses db' = tbl_user_courses db
  ∧ ∀ id,
      option_Forall2
        (λ p p', same_stats p p'
                 ∧ profiles.user_id p' = profiles.user_id p
                 ∧ profiles.role p' = profiles.role p
                 ∧ profiles.created_at p' = profiles.created_at p
                 ∧ (user = Some (profiles.user_id p) →
                    profiles.full_name p' = Some fullName
                    ∧ profiles.avatar_url p' = Some (avatarUrl avatarSeed)
                    ∧ profiles.updated_at p' = now)
                 ∧ (user ≠ Some (profiles.user_id p) → p' = p))
        (tbl_profiles db !! id) (tbl_profiles db' !! id).
Proof.
  destruct user as [uid|]; simpl.
  - repeat split. intros id. rewrite lookup_fmap.
    destruct (tbl_profiles db !! id) as [p|]; constructor.
    case_decide; simplify_eq; repeat split; simpl; congruence.
  - repeat split. intros id.
    destruct (tbl_profiles db !! id) as [p|]; constructor.
    by repeat split.
Qed.

(** ** Non-negative counters *)

Lemma update_profile_stats_nonneg u db db' :
  update_profile_stats u db = Ok db' →
  map_Forall (λ _ p, stats_nonneg p) (tbl_profiles db) →
  map_Forall (λ _ p, stats_nonneg p) (tbl_profiles db').
Proof.
  intros ->%update_profile_stats_Ok Hall id p. simpl.
  rewrite recomputed_lookup.
  destruct (tbl_profiles db !! id) as [q|] eqn:Hq; [|done]. simpl.
  intros [= <-]. unfold set_stats_where. case_decide; [|by eapply Hall].
  eexists _, _, _. repeat split; apply count_where_nonneg.
Qed.

Lemma handle_new_user_Ok new_id meta_full_name id now db db' :
  handle_new_user new_id meta_full_name id now db = Ok db' →
  tbl_profiles db !! id = None
  ∧ tbl_profiles db'
    = <[id := profiles.mk new_id meta_full_name None profiles.user now now
                (Some 0%Z) (Some 0%Z) (Some 0%Z)]> (tbl_profiles db).
Proof.
  unfold handle_new_user. intros H.
  apply result_bind_Ok in H as ([] & Hfresh%check_Ok & H).
  repeat (apply result_bind_Ok in H as ([] & _ & H)).
  by injection H as <-.
Qed.

Lemma reachable_run sts db : reachable db → reachable (run sts db).
Proof.
  revert db. induction sts as [|st sts IH]; intros db Hdb; [done|].
  simpl. apply IH. destruct (exec st db) as [db'|e] eqn:Hex; [|done].
  by eapply reachable_exec.
Qed.

Lemma reachable_commit_sign_up new_id meta_full_name id now db :
  reachable db →
  reachable (commit (insert_auth_users new_id meta_full_name id now db) db).
Proof.
  intros Hdb.
  destruct (insert_auth_users _ _ _ _ db) as [db'|e] eqn:Hex; [|done].
  by eapply reachable_sign_up.
Qed.

Lemma reachable_sample : reachable sample.reassigned.
Proof.
  unfold sample.reassigned, sample.enrolled, sample.base, sample.signed_up,
    sample.first_sign_up.
  repeat lazymatch goal with
    | |- reachable (run _ _) => apply reachable_run
    | |- reachable (commit (insert_auth_users _ _ _ _ _) _) =>
        apply reachable_commit_sign_up
    end.
  apply reachable_empty.
Qed.

Lemma reachable_attainable W db : reachable db → attainable W db.
Proof.
  induction 1.
  - apply attainable_empty.
  - by eapply attainable_exec.
  - by eapply attainable_sign_up.
  - by eapply attainable_updateProfile.
Qed.

Lemma exec_profile_Ok ps db db' :
  exec_profile ps db = Ok db' →
  db' = db
  ∨ match ps with
    | InsertProfile id new =>
        tbl_profiles db !! id = None
        ∧ ¬ has_profile (profiles.user_id new) db
        ∧ db' = with_profiles db (<[id:=new]> (tbl_profiles db))
    | UpdateProfile id new =>
        is_Some (tbl_profiles db !! id)
        ∧ db' = with_profiles db (<[id:=new]> (tbl_profiles db))
    | DeleteProfile id =>
        db' = with_profiles db (delete id (tbl_profiles db))
    end.
Proof.
  destruct ps as [id new|id new|id]; simpl.
  - unfold insert_profiles. intros H.
    repeat (apply result_bind_Ok in H as ([] & ?%check_Ok & H)).
    injection H as <-. right. eauto.
  - unfold update_profiles.
    destruct (tbl_profiles db !! id) as [old|] eqn:Hold;
      [|intros [= <-]; by left].
    intros H.
    repeat (apply result_bind_Ok in H as ([] & ?%check_Ok & H)).
    injection H as <-. right. eauto.
  - unfold delete_profiles.
    destruct (tbl_profiles db !! id) as [old|] eqn:Hold;
      [|intros [= <-]; by left].
    intros H.
    repeat (apply result_bind_Ok in H as ([] & ?%check_Ok & H)).
    injection H as <-. by right.
Qed.

Lemma exec_profile_nonneg ps db db' :
  keeps_counters ps db → exec_profile ps db = Ok db' →
  map_Forall (λ _ p, stats_nonneg p) (tbl_profiles db) →
  map_Forall (λ _ p, stats_nonneg p) (tbl_profiles db').
Proof.
  intros Hkeep [->|Hex]%exec_profile_Ok Hall; [done|].
  destruct ps as [id new|id new|id]; simpl in Hkeep.
  - destruct Hex as (_ & _ & ->). simpl.
    apply map_Forall_insert_2; [|done].
    destruct Hkeep as (Hc & He & Hn). by exists 0%Z, 0%Z, 0%Z.
  - destruct Hex as ([old Hold] & ->). simpl. rewrite Hold in Hkeep.
    apply map_Forall_insert_2; [|done].
    destruct (Hall id old Hold) as (c & e & n & Hc & He & Hn & Hpos).
    destruct Hkeep as (Hc' & He' & Hn'). exists c, e, n.
    by rewrite Hc', He', Hn'.
  - rewrite Hex. simpl. intros k p [_ Hk]%lookup_delete_Some.
    by eapply Hall.
Qed.

(** C7 (amended). In every database produced from the empty one by
    sign-ups, by accepted row statements on [user_courses] and [courses],
    by the profile form and by direct statements on [profiles] that leave
    the counter columns alone, each profile row holds three counters that
    are integers greater than or equal to 0; and the profile
    [handle_new_user] creates starts with all three at 0. *)
Theorem counters_nonneg :
  (∀ db, attainable keeps_counters db →
     map_Forall (λ _ p, stats_nonneg p) (tbl_profiles db))
  ∧ (∀ new_id meta_full_name id now db db',
       handle_new_user new_id meta_full_name id now db = Ok db' →
       ∃ p, tbl_profiles db' !! id = Some p
            ∧ profiles.user_id p = new_id
            ∧ profiles.completed p = Some 0%Z
            ∧ profiles.enrolled p = Some 0%Z
            ∧ profiles.uploads p = Some 0%Z).
Proof.
  split.
  - intros db Hdb. induction Hdb as
      [|st db db' _ IH Hex
       |new_id name id now db db' _ IH Hex
       |user fullName seed now db db' _ IH Hex
       |ps db db' _ IH Hkeep Hex].
    + apply map_Forall_empty.
    + destruct (exec_inv _ _ _ Hex) as [[-> _]|(V & dbm & Hup & _ & Hprof & _)];
        [done|].
      eapply update_profile_stats_nonneg; [done|]. by rewrite Hprof.
    + unfold insert_auth_users in Hex.
      apply result_bind_Ok in Hex as ([] & _ & Hex).
      apply handle_new_user_Ok in Hex as [_ ->]. simpl.
      apply map_Forall_insert_2; [|done].
      by exists 0%Z, 0%Z, 0%Z.
    + destruct user as [uid|]; [|done]. injection Hex as <-. simpl.
      intros id p. rewrite lookup_fmap.
      destruct (tbl_profiles db !! id) as [q|] eqn:Hq; [|done]. simpl.
      intros [= <-]. specialize (IH id q Hq).
      case_decide; [|done]. destruct IH as (c & e & n & ?). by exists c, e, n.
    + by eapply exec_profile_nonneg.
  - intros new_id name id now db db' [_ ->]%handle_new_user_Ok.
    eexists. by rewrite lookup_insert_eq.
Qed.

(** After the writes of the sample, [user-a] gives their own profile the
    role premium and leaves the counters as they are. *)
Lemma counters_nonneg_witness :
  map_Forall (λ _ p, stats_nonneg p) (tbl_profiles direct.promoted)
  ∧ ∃ p, tbl_profiles sample.signed_up !! "profile-b" = Some p
         ∧ profiles.user_id p = "user-b"
         ∧ profiles.completed p = Some 0%Z
         ∧ profiles.enrolled p = Some 0%Z
         ∧ profiles.uploads p = Some 0%Z.
Proof.
  split.
  - apply (proj1 counters_nonneg direct.promoted).
    apply (attainable_profile _ direct.promote sample.reassigned).
    + apply reachable_attainable, reachable_sample.
    + apply (@bool_decide_unpack _ (keeps_counters_dec _ _)).
      vm_compute. exact I.
    + vm_compute. reflexivity.
  - apply (proj2 counters_nonneg "user-b" (Some "Bob") "profile-b"
             "2025-06-27T09:05:00Z"
             (Database {["user-b"; "user-a"]}
                (tbl_profiles sample.first_sign_up) ∅ ∅)).
    vm_compute. reflexivity.
Defined.

(** C7 as stated fails.  The counter columns are [INTEGER DEFAULT 0] with
    no [CHECK] and no [NOT NULL], and "Users can update own profile" lets a
    session write any column of its own row: after signing up, [user-a]
    sends [UPDATE profiles SET completed = -1 WHERE id = 'profile-a'], the
    policy passes, the statement is accepted, and the row holds a negative
    counter. *)
Lemma counters_nonneg_counterexample :
  attainable any_profile_statement direct.overdrawn
  ∧ exec_profile_as (Some "user-a") direct.overdraw sample.first_sign_up
    = Ran (Ok direct.overdrawn)
  ∧ profiles.completed <$> tbl_profiles direct.overdrawn !! "profile-a"
    = Some (Some (-1)%Z)
  ∧ ¬ map_Forall (λ _ p, stats_nonneg p) (tbl_profiles direct.overdrawn).
Proof.
  split_and!.
  - apply (attainable_profile _ direct.overdraw sample.first_sign_up).
    + apply (attainable_sign_up _ "user-a" (Some "Ann") "profile-a"
               "2025-06-27T09:00:00Z" empty_db); [apply attainable_empty|].
      vm_compute. reflexivity.
    + exact I.
    + vm_compute. reflexivity.
  - vm_compute. reflexivity.
  - vm_compute. reflexivity.
  - intros Hall.
    assert (tbl_profiles direct.overdrawn !! "profile-a"
            = Some (profiles.mk "user-a" (Some "Ann") None profiles.user
                      "2025-06-27T09:00:00Z" "2025-07-02T09:00:00Z"
                      (Some (-1)%Z) (Some 0%Z) (Some 0%Z))) as Hrow
      by (vm_compute; reflexivity).
    destruct (Hall _ _ Hrow) as (c & e & n & [= <-] & _ & _ & Hc & _).
    lia.
Qed.

(** ** Enrolling and unenrolling *)

Lemma recomputed_consistent U db :
  stats_consistent U db → recomputed (Some U) db = tbl_profiles db.
Proof.
  intros Hsync. apply map_eq. intros id. rewrite recomputed_lookup.
  destruct (tbl_profiles db !! id) as [p|] eqn:Hp; [|done]. simpl. f_equal.
  unfold set_stats_where. case_decide as Hu; [|done].
  apply sql_eq_Some in Hu. destruct (Hsync id p Hp Hu) as (He & Hc & Hn).
  rewrite Hu in He, Hc, Hn. destruct p; simpl in *. unfold set_stats; simpl.
  by rewrite He, Hc, Hn.
Qed.

Lemma update_profile_stats_consistent U db db' :
  stats_consistent U db → update_profile_stats (Some U) db = Ok db' → db' = db.
Proof.
  intros Hsync ->%update_profile_stats_Ok.
  by rewrite recomputed_consistent, with_profiles_id.
Qed.

Lemma insert_user_courses_Ok id new db db1 :
  insert_user_courses id new db = Ok db1 →
  tbl_user_courses db !! id = None
  ∧ update_profile_stats (Some (user_courses.user_id new))
      (with_user_courses db (<[id:=new]> (tbl_user_courses db))) = Ok db1.
Proof.
  unfold insert_user_courses. intros H.
  apply result_bind_Ok in H as ([] & Hfresh%check_Ok & H).
  do 3 (apply result_bind_Ok in H as ([] & _ & H)).
  by rewrite trigger_update_profile_stats_eq in H.
Qed.

Lemma delete_user_courses_Some id old db :
  tbl_user_courses db !! id = Some old →
  delete_user_courses id db
  = update_profile_stats (Some (user_courses.user_id old))
      (with_user_courses db (delete id (tbl_user_courses db))).
Proof.
  intros Hold. unfold delete_user_courses. rewrite Hold.
  by rewrite trigger_update_profile_stats_eq.
Qed.

(** C4 (amended). When a [user_courses] row for (U, C) is inserted and
    then deleted, both statements being accepted, the database is the one
    [update_profile_stats(U)] returns on the database before the insertion:
    the counters of U are the live counts of the rows that were there
    before.  It is the database before the insertion, counters included,
    when the counters of U were in sync at that point. *)
Theorem enroll_then_unenroll (id : uuid) (new : user_courses.Row)
    (db db1 db2 : database) :
  exec (InsertUserCourse id new) db = Ok db1 →
  exec (DeleteUserCourse id) db1 = Ok db2 →
  update_profile_stats (Some (user_courses.user_id new)) db = Ok db2
  ∧ (stats_consistent (user_courses.user_id new) db → db2 = db).
Proof.
  simpl. intros [Hfresh Hins]%insert_user_courses_Ok Hdel.
  apply update_profile_stats_Ok in Hins as ->.
  rewrite (delete_user_courses_Some _ new) in Hdel
    by (simpl; apply lookup_insert_eq).
  simpl in Hdel. rewrite delete_insert_id in Hdel by done.
  assert (update_profile_stats (Some (user_courses.user_id new)) db = Ok db2)
    as Hup.
  { rewrite <-Hdel. symmetry. unfold recomputed. simpl.
    apply (update_profile_stats_absorb _ _ _ _ db). }
  split; [done|]. intros Hsync.
  by eapply update_profile_stats_consistent.
Qed.

Lemma enroll_then_unenroll_witness :
  update_profile_stats (Some "user-a") sample.base
  = Ok (run [InsertUserCourse "enrol-1"
               (sample.enrollment "user-a" "course-1");
             DeleteUserCourse "enrol-1"] sample.base)
  ∧ (stats_consistent "user-a" sample.base →
     run [InsertUserCourse "enrol-1" (sample.enrollment "user-a" "course-1");
          DeleteUserCourse "enrol-1"] sample.base = sample.base).
Proof.
  apply (enroll_then_unenroll "enrol-1"
           (sample.enrollment "user-a" "course-1") sample.base
           (run [InsertUserCourse "enrol-1"
                   (sample.enrollment "user-a" "course-1")] sample.base));
    vm_compute; reflexivity.
Defined.

(** C4 as stated fails.  In [sample.reassigned] (a reachable database,
    [reachable_sample]) [user-a] is not enrolled in [course-1]; the
    profile says 2 enrollments, 1 completed.  Inserting the enrollment and
    deleting it at once leaves 1 and 0: the live counts, not the values
    from before the insertion. *)
Lemma enroll_then_unenroll_counterexample :
  ¬ pair_taken "enrol-3" (sample.enrollment "user-a" "course-1")
      (tbl_user_courses sample.reassigned)
  ∧ exec (InsertUserCourse "enrol-3" (sample.enrollment "user-a" "course-1"))
      sample.reassigned = Ok sample.reenrolled
  ∧ exec (DeleteUserCourse "enrol-3") sample.reenrolled = Ok sample.unenrolled
  ∧ profiles.enrolled <$> tbl_profiles sample.reassigned !! "profile-a"
    = Some (Some 2%Z)
  ∧ profiles.enrolled <$> tbl_profiles sample.unenrolled !! "profile-a"
    = Some (Some 1%Z)
  ∧ profiles.completed <$> tbl_profiles sample.reassigned !! "profile-a"
    = Some (Some 1%Z)
  ∧ profiles.completed <$> tbl_profiles sample.unenrolled !! "profile-a"
    = Some (Some 0%Z)
  ∧ tbl_profiles sample.unenrolled !! "profile-a"
    ≠ tbl_profiles sample.reassigned !! "profile-a".
Proof.
  split; [apply (bool_decide_unpack _); vm_compute; exact I|].
  repeat split; try (vm_compute; reflexivity).
  apply (bool_decide_unpack _). vm_compute. exact I.
Qed.

(** ** Marking completed and incomplete *)

Lemma update_completion_Ok id owner flag stamp r db db' :
  tbl_user_courses db !! id = Some r →
  owner = None ∨ owner = Some (user_courses.user_id r) →
  update_completion id owner flag stamp db = Ok db' →
  update_profile_stats (Some (user_courses.user_id r))
    (with_user_courses db
       (<[id := set_completion r flag stamp]> (tbl_user_courses db))) = Ok db'.
Proof.
  intros Hr Howner. unfold update_completion. rewrite Hr.
  rewrite decide_True by done. simpl. unfold update_user_courses.
  rewrite Hr. intros H.
  do 3 (apply result_bind_Ok in H as ([] & _ & H)).
  by rewrite trigger_update_profile_stats_eq in H.
Qed.

(** Setting the flag and clearing it again, on a row that was not
    completed: the timestamp follows the flag, and the profile ends with
    the live counts of the rows as they were before. *)
Lemma completion_round_trip id o1 o2 s1 r db db1 db2 :
  tbl_user_courses db !! id = Some r →
  o1 = None ∨ o1 = Some (user_courses.user_id r) →
  o2 = None ∨ o2 = Some (user_courses.user_id r) →
  user_courses.completed r ≠ Some true →
  update_completion id o1 true s1 db = Ok db1 →
  update_completion id o2 false None db1 = Ok db2 →
  tbl_user_courses db1 !! id = Some (set_completion r true s1)
  ∧ tbl_user_courses db2 !! id = Some (set_completion r false None)
  ∧ tbl_profiles db2 = recomputed (Some (user_courses.user_id r)) db.
Proof.
  intros Hr Ho1 Ho2 Hnot H1 H2.
  apply (update_completion_Ok _ _ _ _ r) in H1; [|done..].
  apply update_profile_stats_Ok in H1 as ->.
  assert (tbl_user_courses
            (with_profiles
               (with_user_courses db
                  (<[id:=set_completion r true s1]> (tbl_user_courses db)))
               (recomputed (Some (user_courses.user_id r))
                  (with_user_courses db
                     (<[id:=set_completion r true s1]> (tbl_user_courses db)))))
            !! id = Some (set_completion r true s1)) as Hr1
    by (simpl; apply lookup_insert_eq).
  split; [done|].
  apply (update_completion_Ok _ _ _ _ _ _ _ Hr1) in H2; [|done].
  apply update_profile_stats_Ok in H2 as ->. simpl.
  split; [apply lookup_insert_eq|].
  rewrite insert_insert_eq. unfold recomputed; simpl.
  rewrite fmap_absorb by (intros p; apply set_stats_where_absorb).
  unfold count_completed, count_enrolled.
  rewrite count_where_insert_other.
  - by rewrite (count_where_insert_same _ _ _ r).
  - simpl. by intros [_ ?].
  - intros old ?. simplify_eq. by intros [_ ?].
Qed.

(** C5 (amended). On an enrollment that is not completed, marking it
    completed and then incomplete (on the library page, or on the course
    page) sets [completed_at] with the flag and clears it with the flag;
    the profile of the owner ends with the counters [update_profile_stats]
    computes from the rows as they were before the toggle, so its
    [completed] is the number of completed enrollments before the toggle;
    the profile table is the one before the toggle when the counters of the
    owner were in sync at that point. *)
Theorem toggle_round_trip (id : uuid) (r : user_courses.Row)
    (now1 now2 : timestamptz) (db db1 db2 : database) :
  tbl_user_courses db !! id = Some r →
  user_courses.completed r ≠ Some true →
  (toggleCourseCompletion (Some (user_courses.user_id r)) now1 id false db
     = Ok db1
   ∧ toggleCourseCompletion (Some (user_courses.user_id r)) now2 id true db1
     = Ok db2)
  ∨ (handleMarkCompleted now1 (Learn.mk (Some id) false) db
       = (Learn.mk (Some id) true, db1)
     ∧ handleMarkCompleted now2 (Learn.mk (Some id) true) db1
       = (Learn.mk (Some id) false, db2)) →
  tbl_user_courses db1 !! id = Some (set_completion r true (Some now1))
  ∧ tbl_user_courses db2 !! id = Some (set_completion r false None)
  ∧ tbl_profiles db2 = recomputed (Some (user_courses.user_id r)) db
  ∧ (stats_consistent (user_courses.user_id r) db →
     tbl_profiles db2 = tbl_profiles db).
Proof.
  intros Hr Hnot Hcalls.
  assert (tbl_user_courses db1 !! id = Some (set_completion r true (Some now1))
          ∧ tbl_user_courses db2 !! id = Some (set_completion r false None)
          ∧ tbl_profiles db2 = recomputed (Some (user_courses.user_id r)) db)
    as (H1 & H2 & H3).
  { destruct Hcalls as [[Hc1 Hc2]|[Hc1 Hc2]].
    - simpl in Hc1, Hc2.
      by eapply (completion_round_trip id (Some _) (Some _)); eauto.
    - unfold handleMarkCompleted in Hc1, Hc2. simpl in Hc1, Hc2.
      destruct id as [|a id']; [done|].
      destruct (update_completion _ None true _ db) as [d1|] eqn:Hu1;
        [|done].
      injection Hc1 as <-.
      destruct (update_completion _ None false _ d1) as [d2|] eqn:Hu2;
        [|done].
      injection Hc2 as <-.
      by eapply (completion_round_trip _ None None); eauto. }
  repeat split; [done..|].
  intros Hsync. by rewrite H3, recomputed_consistent.
Qed.

Lemma toggle_round_trip_witness :
  tbl_user_courses sample.ticked !! "enrol-2"
  = Some (set_completion (sample.enrollment "user-a" "course-2") true
            (Some "2025-06-30T08:00:00Z"))
  ∧ tbl_user_courses sample.unticked !! "enrol-2"
    = Some (set_completion (sample.enrollment "user-a" "course-2") false None)
  ∧ tbl_profiles sample.unticked = recomputed (Some "user-a") sample.enrolled
  ∧ (stats_consistent "user-a" sample.enrolled →
     tbl_profiles sample.unticked = tbl_profiles sample.enrolled).
Proof.
  apply (toggle_round_trip "enrol-2" (sample.enrollment "user-a" "course-2")
           "2025-06-30T08:00:00Z" "2025-06-30T08:00:05Z" sample.enrolled).
  - vm_compute. reflexivity.
  - discriminate.
  - left. split; vm_compute; reflexivity.
Defined.

(** C5 as stated fails.  In [sample.reassigned] the profile of [user-a]
    says 1 completed course; the enrollment [enrol-2] is not completed.  Marking it completed and
    then incomplete leaves the counter at 0, not at its value before the
    toggle; [completed_at] is null again. *)
Lemma toggle_round_trip_counterexample :
  user_courses.completed <$> tbl_user_courses sample.reassigned !! "enrol-2"
    = Some (Some false)
  ∧ toggleCourseCompletion (Some "user-a") "2025-06-30T08:00:00Z"
      "enrol-2" false sample.reassigned = Ok sample.marked
  ∧ toggleCourseCompletion (Some "user-a") "2025-06-30T08:00:05Z"
      "enrol-2" true sample.marked = Ok sample.unmarked
  ∧ user_courses.completed_at <$> tbl_user_courses sample.unmarked !! "enrol-2"
    = Some None
  ∧ profiles.completed <$> tbl_profiles sample.reassigned !! "profile-a"
    = Some (Some 1%Z)
  ∧ profiles.completed <$> tbl_profiles sample.marked !! "profile-a"
    = Some (Some 1%Z)
  ∧ profiles.completed <$> tbl_profiles sample.unmarked !! "profile-a"
    = Some (Some 0%Z)
  ∧ profiles.completed <$> tbl_profiles sample.unmarked !! "profile-a"
    ≠ profiles.completed <$> tbl_profiles sample.reassigned !! "profile-a".
Proof.
  repeat split; try (vm_compute; reflexivity).
  apply (bool_decide_unpack _). vm_compute. exact I.
Qed.

(** * Beyond the statistics: policies, pages and forms *)

(** ** What a statement does, exactly *)

Lemma exec_shape st db db' :
  exec st db = Ok db' →
  (db' = db ∧ ∀ U, ¬ trigger_row_of U st db)
  ∨ ∃ V, trigger_row_of V st db
         ∧ update_profile_stats (Some V) (mutated st db) = Ok db'.
Proof.
  destruct st as [id new|id new|id|id new|id new|id]; simpl.
  - unfold insert_user_courses. intros H.
    repeat (apply result_bind_Ok in H as ([] & ?%check_Ok & H)).
    rewrite trigger_update_profile_stats_eq in H. right. by eexists.
  - unfold update_user_courses.
    destruct (tbl_user_courses db !! id) as [old|] eqn:Hold.
    2:{ intros [= <-]. left. split; [done|]. intros U [[] ?]. done. }
    intros H.
    repeat (apply result_bind_Ok in H as ([] & ?%check_Ok & H)).
    rewrite trigger_update_profile_stats_eq in H. right. by eexists.
  - unfold delete_user_courses.
    destruct (tbl_user_courses db !! id) as [old|] eqn:Hold.
    2:{ intros [= <-]. left. split; [done|]. by intros U. }
    intros H. rewrite trigger_update_profile_stats_eq in H.
    right. by eexists.
  - unfold insert_courses. intros H.
    repeat (apply result_bind_Ok in H as ([] & ?%check_Ok & H)).
    rewrite trigger_update_upload_stats_eq in H. right. by eexists.
  - unfold update_courses.
    destruct (tbl_courses db !! id) as [old|] eqn:Hold.
    2:{ intros [= <-]. left. split; [done|]. intros U [[] ?]. done. }
    intros H.
    repeat (apply result_bind_Ok in H as ([] & ?%check_Ok & H)).
    rewrite trigger_update_upload_stats_eq in H. right. by eexists.
  - unfold delete_courses.
    destruct (tbl_courses db !! id) as [old|] eqn:Hold.
    2:{ intros [= <-]. left. split; [done|]. by intros U. }
    intros H.
    repeat (apply result_bind_Ok in H as ([] & ?%check_Ok & H)).
    rewrite trigger_update_upload_stats_eq in H. right. by eexists.
Qed.

(** ** Row-level security *)

(** When the policies let a statement run, it affects no row, or the row
    it writes is the session's own. *)
Lemma exec_as_Ran uid st db r :
  exec_as uid st db = Ran r →
  r = Ok db ∨ (r = exec st db ∧ writes_own uid st db).
Proof.
  destruct st as [id new|id new|id|id new|id new|id]; simpl;
    repeat (case_match; simplify_eq; try done); intros [= <-]; eauto 10.
Qed.

Lemma writes_own_keeps uid st db U : writes_own uid st db → ¬ reassigns U st db.
Proof.
  unfold policy.own_user_course, policy.own_course, sql_eq.
  destruct st as [id new|id new|id|id new|id new|id]; simpl; try tauto.
  - intros (old & -> & ? & ?). intuition congruence.
  - intros (old & -> & ? & ?). intuition congruence.
Qed.

Lemma writes_own_trigger uid st db V :
  writes_own uid st db → trigger_row_of V st db → uid = Some V.
Proof.
  unfold policy.own_user_course, policy.own_course, sql_eq.
  destruct st as [id new|id new|id|id new|id new|id]; simpl.
  - congruence.
  - intros (old & -> & ? & ?) [_ ?]. congruence.
  - intros (old & -> & ?). simpl. congruence.
  - congruence.
  - intros (old & -> & ? & ?) [_ ?]. congruence.
  - intros (old & -> & ?). simpl. congruence.
Qed.

Lemma premium_session_anonymous db : ¬ premium_session None db.
Proof. by intros (id & p & _ & Hu & _). Qed.

(** X1. Who can read a course.  An anonymous session reads exactly the
    approved public courses; a private course, and a course that is not
    approved, is read by its uploader and by nobody else, whatever their
    role; a premium course is read by its uploader and, once approved, by
    the sessions whose profile has the role premium or admin. *)
Theorem course_visibility (uid : option uuid) (db : database)
    (c : courses.Row) :
  (can_select_course None db c ↔
     courses.is_approved c = Some true
     ∧ courses.access_type c = courses.public)
  ∧ (courses.access_type c = courses.private
     ∨ courses.is_approved c ≠ Some true →
     (can_select_course uid db c ↔ sql_eq (courses.uploader_id c) uid))
  ∧ (courses.access_type c = courses.premium →
     (can_select_course uid db c ↔
        sql_eq (courses.uploader_id c) uid
        ∨ (courses.is_approved c = Some true ∧ premium_session uid db))).
Proof.
  unfold can_select_course, policy.view_public, policy.view_premium,
    policy.view_own.
  pose proof (premium_session_anonymous db). unfold sql_eq.
  repeat split; try (intuition congruence).
Qed.

Lemma course_visibility_witness :
  can_select_course (Some "user-b") sample.enrolled more.private_course
  ↔ sql_eq "user-a" (Some "user-b").
Proof.
  apply (proj1 (proj2 (course_visibility (Some "user-b") sample.enrolled
                         more.private_course))).
  left. reflexivity.
Defined.

Lemma commit_as_preserves U uid st db :
  stats_consistent U db → stats_consistent U (commit_as uid st db).
Proof.
  intros Hsync. unfold commit_as.
  destruct (exec_as uid st db) as [|r] eqn:Hreq; [done|].
  apply exec_as_Ran in Hreq as [->|[-> Hown]]; [done|].
  apply exec_preserves; [|done]. by eapply writes_own_keeps.
Qed.

Lemma has_profile_exec U st db db' :
  exec st db = Ok db' → has_profile U db → has_profile U db'.
Proof.
  intros [[-> _]|(V & _ & Hup)]%exec_shape; [done|].
  apply update_profile_stats_Ok in Hup as ->.
  intros (id & p & Hp & Hu). eexists id, _. simpl. split.
  - rewrite recomputed_lookup.
    replace (tbl_profiles (mutated st db)) with (tbl_profiles db)
      by (by destruct st).
    by rewrite Hp.
  - simpl. by rewrite set_stats_where_user_id.
Qed.

Lemma commit_as_has_profile U uid st db :
  has_profile U db → has_profile U (commit_as uid st db).
Proof.
  intros HU. unfold commit_as.
  destruct (exec_as uid st db) as [|r] eqn:Hreq; [done|].
  apply exec_as_Ran in Hreq as [->|[-> _]]; [done|].
  destruct (exec st db) as [db'|e] eqn:Hex; [|done].
  by eapply has_profile_exec.
Qed.

(** A direct statement on [profiles] that passes the policies and leaves
    the counters alone keeps the profile of [U] and its agreement with the
    live counts. *)
Lemma exec_profile_as_preserves U uid ps db r :
  exec_profile_as uid ps db = Ran r →
  keeps_counters ps db →
  has_profile U db → stats_consistent U db →
  has_profile U (commit r db) ∧ stats_consistent U (commit r db).
Proof.
  intros Hreq Hkeep HU Hsync.
  destruct ps as [id new|id new|id]; simpl in Hreq, Hkeep.
  - case_decide as Hown; [|done]. injection Hreq as <-.
    destruct (insert_profiles id new db) as [db'|e] eqn:Hex; [|done].
    apply (exec_profile_Ok (InsertProfile id new)) in Hex
      as [->|(Hfresh & Hnone & ->)]; [done|].
    assert (profiles.user_id new ≠ U) as Hother by congruence.
    simpl. split.
    + destruct HU as (k & p & Hp & Hu). exists k, p. split; [|done]. simpl.
      rewrite lookup_insert_ne; [done|]. congruence.
    + intros k p. simpl. intros [[<- <-]|[_ Hp]]%lookup_insert_Some Hu;
        [done|]. by apply (Hsync k p).
  - destruct (tbl_profiles db !! id) as [old|] eqn:Hold;
      [|by injection Hreq as <-].
    case_decide as Hold_own; [|by injection Hreq as <-].
    case_decide as Hnew_own; [|done]. injection Hreq as <-.
    destruct (update_profiles id new db) as [db'|e] eqn:Hex; [|done].
    apply (exec_profile_Ok (UpdateProfile id new)) in Hex
      as [->|(_ & ->)]; [done|].
    assert (profiles.user_id new = profiles.user_id old) as Huser.
    { unfold policy.own_profile, sql_eq in Hold_own, Hnew_own. congruence. }
    destruct Hkeep as (Hc & He & Hn). simpl. split.
    + destruct HU as (k & p & Hp & Hu).
      destruct (decide (k = id)) as [->|Hk].
      * exists id, new. simpl. rewrite lookup_insert_eq. split; [done|].
        congruence.
      * exists k, p. simpl. by rewrite lookup_insert_ne.
    + intros k p. simpl. intros [[<- <-]|[_ Hp]]%lookup_insert_Some Hu;
        [|by apply (Hsync k p)].
      destruct (Hsync id old Hold) as (He' & Hc' & Hn'); [congruence|].
      unfold in_sync. simpl. rewrite Huser, Hc, He, Hn. done.
  - by injection Hreq as <-.
Qed.

Lemma commit_request_preserves U uid req db :
  match req with
  | OnRow _ => True
  | OnProfile ps => keeps_counters ps db
  end →
  has_profile U db → stats_consistent U db →
  has_profile U (commit_request uid req db)
  ∧ stats_consistent U (commit_request uid req db).
Proof.
  intros Hkeep HU Hsync. destruct req as [st|ps].
  - split.
    + by apply commit_as_has_profile.
    + by apply commit_as_preserves.
  - unfold commit_request. simpl.
    destruct (exec_profile_as uid ps db) as [|r] eqn:Hreq; [done|].
    by eapply exec_profile_as_preserves.
Qed.

(** X2. Under the policies no session can hand a row to another user or
    take over a profile, so for every user with a profile the statistics
    stay in sync over any sequence of requests on [user_courses],
    [courses] and [profiles], of any sessions, in which no request on
    [profiles] writes a counter, once they are in sync. *)
Theorem stats_invariant_sessions (U : uuid)
    (reqs : list (option uuid * request)) (db : database) :
  has_profile U db →
  counters_untouched reqs db →
  stats_consistent U db →
  stats_consistent U (run_requests reqs db).
Proof.
  revert db.
  induction reqs as [|[uid req] reqs IH]; intros db HU Hkeep Hsync; [done|].
  destruct Hkeep as [Hreq Hkeep]. simpl in Hreq, Hkeep.
  destruct (commit_request_preserves U uid req db Hreq HU Hsync).
  simpl. by apply IH.
Qed.

(** The hand-over of [sample.reassign], asked by the owner and by the
    receiver: the first request is refused, the second one finds no row.
    Then [user-a] takes the role premium, [user-b] tries the same on the
    row of [user-a], and [user-a] removes a course from the library. *)
Lemma stats_invariant_sessions_witness :
  exec_as (Some "user-a") sample.reassign sample.enrolled = Denied
  ∧ exec_as (Some "user-b") sample.reassign sample.enrolled
    = Ran (Ok sample.enrolled)
  ∧ stats_consistent "user-a"
      (run_requests
         [(Some "user-a", OnRow sample.reassign);
          (Some "user-b", OnRow sample.reassign);
          (Some "user-a", OnProfile direct.promote);
          (Some "user-b", OnProfile direct.promote);
          (Some "user-a", OnRow (DeleteUserCourse "enrol-2"))]
         sample.enrolled).
Proof.
  split; [vm_compute; reflexivity|]. split; [vm_compute; reflexivity|].
  apply (stats_invariant_sessions "user-a").
  - apply (bool_decide_unpack _). vm_compute. exact I.
  - apply (@bool_decide_unpack _ (counters_untouched_dec _ _)).
    vm_compute. exact I.
  - apply (@bool_decide_unpack _ (stats_consistent_dec _ _)).
    vm_compute. exact I.
Defined.

Lemma exec_insert_fresh st db db' :
  exec st db = Ok db' →
  match st with
  | InsertUserCourse id _ => tbl_user_courses db !! id = None
  | InsertCourse id _ => tbl_courses db !! id = None
  | _ => True
  end.
Proof.
  destruct st as [id new|id new|id|id new|id new|id]; simpl; try done.
  - unfold insert_user_courses. intros H.
    by apply result_bind_Ok in H as ([] & ?%check_Ok & H).
  - unfold insert_courses. intros H.
    by apply result_bind_Ok in H as ([] & ?%check_Ok & H).
Qed.

Lemma recomputed_lookup_other u db id p :
  tbl_profiles db !! id = Some p → ¬ sql_eq (profiles.user_id p) u →
  recomputed u db !! id = Some p.
Proof.
  intros Hp Hu. rewrite recomputed_lookup, Hp. simpl.
  unfold set_stats_where. by rewrite decide_False.
Qed.

(** X3. A request changes nothing outside the session that sends it: the
    profiles, enrollments and courses of other users are as before, every
    row that is new or different belongs to the session, and an anonymous
    session changes nothing at all. *)
Theorem session_isolation (uid : option uuid) (st : statement)
    (db : database) :
  let db' := commit_as uid st db in
  (uid = None → db' = db)
  ∧ auth_users db' = auth_users db
  ∧ (∀ id p, tbl_profiles db !! id = Some p →
       ¬ sql_eq (profiles.user_id p) uid → tbl_profiles db' !! id = Some p)
  ∧ (∀ id r, tbl_user_courses db !! id = Some r →
       ¬ policy.own_user_course uid r → tbl_user_courses db' !! id = Some r)
  ∧ (∀ id c, tbl_courses db !! id = Some c →
       ¬ policy.own_course uid c → tbl_courses db' !! id = Some c)
  ∧ (∀ id r, tbl_user_courses db' !! id = Some r →
       tbl_user_courses db !! id = Some r ∨ policy.own_user_course uid r)
  ∧ (∀ id c, tbl_courses db' !! id = Some c →
       tbl_courses db !! id = Some c ∨ policy.own_course uid c).
Proof.
  simpl. unfold commit_as.
  destruct (exec_as uid st db) as [|r] eqn:Hreq; [by auto 10|].
  apply exec_as_Ran in Hreq as [->|[-> Hown]]; [by auto 10|].
  destruct (exec st db) as [db'|e] eqn:Hex; simpl; [|by auto 10].
  pose proof (exec_insert_fresh _ _ _ Hex) as Hfresh.
  destruct (exec_shape _ _ _ Hex) as [[-> _]|(V & HV & Hup)]; [by auto 10|].
  pose proof (writes_own_trigger _ _ _ _ Hown HV) as ->. clear Hex.
  apply update_profile_stats_Ok in Hup as ->.
  split; [done|]. simpl.
  split; [by destruct st|].
  split.
  { intros id p Hp Hu. apply recomputed_lookup_other; [|done].
    by destruct st. }
  unfold policy.own_user_course, policy.own_course, sql_eq in *.
  destruct st as [k new|k new|k|k new|k new|k]; simpl in *;
    try destruct Hown as (old & Hold & Hown);
    repeat split; intros id x;
    try (destruct (decide (k = id)) as [->|Hne];
         rewrite ?lookup_insert_eq, ?lookup_delete_eq,
           ?lookup_insert_ne, ?lookup_delete_ne by done);
    intros; simplify_eq; intuition congruence.
Qed.

Lemma session_isolation_witness :
  tbl_profiles
    (commit_as (Some "user-a") (DeleteUserCourse "enrol-2") sample.enrolled)
    !! "profile-b"
  = Some (profiles.mk "user-b" (Some "Bob") None profiles.user
            "2025-06-27T09:05:00Z" "2025-06-27T09:05:00Z"
            (Some 0%Z) (Some 0%Z) (Some 0%Z)).
Proof.
  apply (proj1 (proj2 (proj2 (session_isolation (Some "user-a")
                                (DeleteUserCourse "enrol-2") sample.enrolled)))
           "profile-b").
  - vm_compute. reflexivity.
  - vm_compute. discriminate.
Defined.

(** ** The library of a user *)

Lemma single_map_to_list {A} (m : gmap uuid A) k v :
  single (map_to_list m) = Some (k, v) ↔ m = {[k := v]}.
Proof.
  split.
  - destruct (map_to_list m) as [|x [|y l]] eqn:E; simpl; try done.
    intros [= ->]. rewrite <-(list_to_map_to_list m), E. simpl.
    by rewrite insert_empty.
  - intros ->. by rewrite map_to_list_singleton.
Qed.

Section count_where_more.
Context {A : Type} (P : A → Prop) `{!∀ x, Decision (P x)}.
Implicit Types t : gmap uuid A.

Lemma count_where_insert_new t id new :
  t !! id = None → P new →
  count_where P (<[id:=new]> t) = (count_where P t + 1)%Z.
Proof.
  intros Hid Hnew. unfold count_where.
  rewrite map_filter_insert_True by done.
  rewrite map_size_insert_None; [lia|].
  apply map_lookup_filter_None. by left.
Qed.

Lemma count_where_delete_old t id old :
  t !! id = Some old → P old →
  count_where P (delete id t) = (count_where P t - 1)%Z.
Proof.
  intros Hid Hold. unfold count_where. rewrite map_filter_delete.
  assert (filter (λ kv, P kv.2) t !! id = Some old) as Hin
    by (by apply map_lookup_filter_Some).
  rewrite map_size_delete, Hin.
  assert (size (filter (λ kv, P kv.2) t) ≠ 0); [|simpl; lia].
  apply map_size_non_empty_iff. intros Hempty.
  by rewrite Hempty, lookup_empty in Hin.
Qed.
End count_where_more.

Lemma check_fail (P : Prop) `{!Decision P} e : ¬ P → check P e = Err e.
Proof. intros. unfold check. by rewrite decide_False. Qed.

Lemma check_pass (P : Prop) `{!Decision P} e : P → check P e = Ok ().
Proof. intros. unfold check. by rewrite decide_True. Qed.

Lemma select_enrollment_cons uid courseId db kv rows :
  select_enrollment uid courseId db = kv :: rows →
  tbl_user_courses db !! kv.1 = Some kv.2
  ∧ user_courses.user_id kv.2 = uid ∧ user_courses.course_id kv.2 = courseId.
Proof.
  intros Hsel. destruct kv as [k r]. simpl.
  assert ((k, r) ∈ select_enrollment uid courseId db) as Hin
    by (rewrite Hsel; left).
  unfold select_enrollment in Hin.
  apply elem_of_map_to_list, map_lookup_filter_Some in Hin. naive_solver.
Qed.

(** X4. Adding a course that is already in the library is refused: the
    page shows its error, and neither the database nor the page's set of
    library courses changes. *)
Theorem addToLibrary_enrolled (uid courseId id : uuid) (now : timestamptz)
    (userLibrary : gset uuid) (db : database) :
  select_enrollment uid courseId db ≠ [] →
  addToLibrary (Some uid) courseId id now userLibrary db
  = (toast_error, userLibrary, db).
Proof.
  intros Hsel. destruct (select_enrollment uid courseId db) as [|[k r] rows]
    eqn:Hrows; [done|].
  apply select_enrollment_cons in Hrows as (Hk & Hu & Hc). simpl in *.
  unfold addToLibrary. simpl. unfold insert_user_courses.
  destruct (decide (k = id)) as [->|Hne].
  - by rewrite (check_fail (tbl_user_courses db !! id = None))
      by (by rewrite Hk).
  - destruct (check (tbl_user_courses db !! id = None) _) as [[]|]; [|done].
    simpl. rewrite (check_fail (¬ pair_taken _ _ _)); [done|].
    intros Hfree. apply Hfree. exists k, r. by repeat split.
Qed.

Lemma addToLibrary_enrolled_witness :
  addToLibrary (Some "user-a") "course-1" "enrol-9" "2025-07-01T10:00:00Z"
    {["course-1"]} sample.enrolled
  = (toast_error, {["course-1"]}, sample.enrolled).
Proof.
  apply (addToLibrary_enrolled "user-a" "course-1" "enrol-9").
  vm_compute. discriminate.
Defined.

Lemma insert_user_courses_inv id new db db' :
  insert_user_courses id new db = Ok db' →
  tbl_user_courses db !! id = None
  ∧ ¬ pair_taken id new (tbl_user_courses db)
  ∧ user_courses.user_id new ∈ auth_users db
  ∧ is_Some (tbl_courses db !! user_courses.course_id new)
  ∧ db' = with_profiles
            (with_user_courses db (<[id:=new]> (tbl_user_courses db)))
            (recomputed (Some (user_courses.user_id new))
               (with_user_courses db (<[id:=new]> (tbl_user_courses db)))).
Proof.
  unfold insert_user_courses. intros H.
  apply result_bind_Ok in H as ([] & Hfresh%check_Ok & H).
  apply result_bind_Ok in H as ([] & Hpair%check_Ok & H).
  apply result_bind_Ok in H as ([] & Huser%check_Ok & H).
  apply result_bind_Ok in H as ([] & Hcourse%check_Ok & H).
  rewrite trigger_update_profile_stats_eq in H.
  by apply update_profile_stats_Ok in H.
Qed.

(** The rows [checkLibraryStatus] selects, after a new row for the pair
    was inserted. *)
Lemma select_enrollment_insert_new uid courseId id now db :
  tbl_user_courses db !! id = None →
  ¬ pair_taken id (new_enrollment uid courseId now) (tbl_user_courses db) →
  map_to_list
    (filter (λ kv, user_courses.user_id kv.2 = uid
                   ∧ user_courses.course_id kv.2 = courseId)
       (<[id:=new_enrollment uid courseId now]> (tbl_user_courses db)))
  = [(id, new_enrollment uid courseId now)].
Proof.
  intros Hfresh Hpair. rewrite map_filter_insert_True by done.
  rewrite (map_empty_filter_2 _ (tbl_user_courses db)).
  - by rewrite insert_empty, map_to_list_singleton.
  - intros k r Hk [Hu Hc]. apply Hpair. exists k, r.
    repeat split; [done| |done..]. intros ->. congruence.
Qed.

(** X5. A course added to the library: the enrollment is stored under the
    new key with the flag off and no completion date, the live number of
    enrollments of the user grows by exactly one while the number of
    completed ones stays, the profile of the user shows these counts, and
    the page adds the course to its set. *)
Theorem addToLibrary_success (uid courseId id : uuid) (now : timestamptz)
    (userLibrary userLibrary' : gset uuid) (db db' : database) :
  addToLibrary (Some uid) courseId id now userLibrary db
    = (toast_success, userLibrary', db') →
  userLibrary' = userLibrary ∪ {[courseId]}
  ∧ tbl_user_courses db !! id = None
  ∧ tbl_user_courses db'
    = <[id := new_enrollment uid courseId now]> (tbl_user_courses db)
  ∧ tbl_courses db' = tbl_courses db
  ∧ count_enrolled (Some uid) (tbl_user_courses db')
    = (count_enrolled (Some uid) (tbl_user_courses db) + 1)%Z
  ∧ count_completed (Some uid) (tbl_user_courses db')
    = count_completed (Some uid) (tbl_user_courses db)
  ∧ stats_consistent uid db'
  ∧ select_enrollment uid courseId db'
    = [(id, new_enrollment uid courseId now)].
Proof.
  unfold addToLibrary. simpl.
  destruct (insert_user_courses _ _ db) as [d|e] eqn:Hins; [|done].
  intros [= <- <-].
  pose proof (update_profile_stats_establishes uid
                (with_user_courses db
                   (<[id:=new_enrollment uid courseId now]>
                      (tbl_user_courses db))) d) as Hsync.
  pose proof Hins as Hins'. unfold insert_user_courses in Hins'.
  do 4 (apply result_bind_Ok in Hins' as ([] & _ & Hins')).
  rewrite trigger_update_profile_stats_eq in Hins'.
  apply insert_user_courses_inv in Hins as (Hfresh & Hpair & _ & _ & ->).
  simpl. split_and!; [done..| | |by apply Hsync|].
  - by apply count_where_insert_new.
  - apply count_where_insert_other; [by intros [_ ?]|].
    intros old ?. congruence.
  - unfold select_enrollment. simpl.
    by apply select_enrollment_insert_new.
Qed.

Lemma addToLibrary_success_witness :
  {["course-1"]} = (∅ : gset uuid) ∪ {["course-1"]}
  ∧ tbl_user_courses sample.base !! "enrol-1" = None
  ∧ tbl_user_courses
      (run [InsertUserCourse "enrol-1"
              (new_enrollment "user-b" "course-1" "2025-07-01T10:00:00Z")]
         sample.base)
    = <[ "enrol-1" := new_enrollment "user-b" "course-1"
                        "2025-07-01T10:00:00Z"]>
        (tbl_user_courses sample.base)
  ∧ tbl_courses
      (run [InsertUserCourse "enrol-1"
              (new_enrollment "user-b" "course-1" "2025-07-01T10:00:00Z")]
         sample.base) = tbl_courses sample.base
  ∧ count_enrolled (Some "user-b")
      (tbl_user_courses
         (run [InsertUserCourse "enrol-1"
                 (new_enrollment "user-b" "course-1" "2025-07-01T10:00:00Z")]
            sample.base))
    = (count_enrolled (Some "user-b") (tbl_user_courses sample.base) + 1)%Z
  ∧ count_completed (Some "user-b")
      (tbl_user_courses
         (run [InsertUserCourse "enrol-1"
                 (new_enrollment "user-b" "course-1" "2025-07-01T10:00:00Z")]
            sample.base))
    = count_completed (Some "user-b") (tbl_user_courses sample.base)
  ∧ stats_consistent "user-b"
      (run [InsertUserCourse "enrol-1"
              (new_enrollment "user-b" "course-1" "2025-07-01T10:00:00Z")]
         sample.base)
  ∧ select_enrollment "user-b" "course-1"
      (run [InsertUserCourse "enrol-1"
              (new_enrollment "user-b" "course-1" "2025-07-01T10:00:00Z")]
         sample.base)
    = [("enrol-1",
        new_enrollment "user-b" "course-1" "2025-07-01T10:00:00Z")].
Proof.
  apply (addToLibrary_success "user-b" "course-1" "enrol-1"
           "2025-07-01T10:00:00Z" ∅ {["course-1"]} sample.base).
  vm_compute. reflexivity.
Defined.

(** X6. The course page after "add to library": either nothing happened
    (no user, no course id, or the insert was refused) and page and
    database are as before, or the enrollment is stored and the page holds
    [inLibrary], the key of the new row and a cleared flag. *)
Theorem handleAddToLibrary_page (user courseId : option uuid) (id : uuid)
    (now : timestamptz) (page page' : bool * Learn.State)
    (db db' : database) :
  handleAddToLibrary user courseId id now page db = (page', db') →
  (page' = page ∧ db' = db)
  ∨ ∃ uid c, user = Some uid ∧ courseId = Some c
             ∧ tbl_user_courses db' !! id = Some (new_enrollment uid c now)
             ∧ page' = (true, Learn.mk (Some id) false).
Proof.
  unfold handleAddToLibrary.
  destruct user as [uid|]; [|intros [= <- <-]; by left].
  destruct courseId as [[|a c]|]; try (intros [= <- <-]; by left).
  simpl.
  destruct (insert_user_courses _ _ db) as [d|e] eqn:Hins;
    [|intros [= <- <-]; by left].
  intros [= <- <-]. right. exists uid, (String a c).
  apply insert_user_courses_inv in Hins as (Hfresh & Hpair & _ & _ & ->).
  split_and!; [done..|by apply lookup_insert_eq|].
  unfold checkLibraryStatus, select_enrollment. simpl.
  by rewrite select_enrollment_insert_new.
Qed.

Lemma handleAddToLibrary_page_witness :
  (true, Learn.mk (Some "enrol-1") false) = (false, Learn.mk None false)
  ∧ run [InsertUserCourse "enrol-1"
           (new_enrollment "user-b" "course-1" "2025-07-01T10:00:00Z")]
      sample.base = sample.base
  ∨ ∃ uid c, Some "user-b" = Some uid ∧ Some "course-1" = Some c
      ∧ tbl_user_courses
          (run [InsertUserCourse "enrol-1"
                  (new_enrollment "user-b" "course-1" "2025-07-01T10:00:00Z")]
             sample.base) !! "enrol-1"
        = Some (new_enrollment uid c "2025-07-01T10:00:00Z")
      ∧ (true, Learn.mk (Some "enrol-1") false)
        = (true, Learn.mk (Some "enrol-1") false).
Proof.
  apply (handleAddToLibrary_page (Some "user-b") (Some "course-1") "enrol-1"
           "2025-07-01T10:00:00Z" (false, Learn.mk None false)
           (true, Learn.mk (Some "enrol-1") false) sample.base).
  vm_compute. reflexivity.
Defined.

Lemma checkLibraryStatus_found uid courseId db st :
  checkLibraryStatus uid courseId db = (true, st) →
  ∃ id r,
    filter (λ kv, user_courses.user_id kv.2 = uid
                  ∧ user_courses.course_id kv.2 = courseId)
      (tbl_user_courses db) = {[id := r]}
    ∧ tbl_user_courses db !! id = Some r
    ∧ user_courses.user_id r = uid ∧ user_courses.course_id r = courseId
    ∧ st = Learn.mk (Some id)
             (bool_decide (user_courses.completed r = Some true)).
Proof.
  unfold checkLibraryStatus, select_enrollment.
  destruct (single _) as [[id r]|] eqn:Hsingle; [|done].
  intros [= <-]. apply single_map_to_list in Hsingle. exists id, r.
  assert (filter (λ kv, user_courses.user_id kv.2 = uid
                        ∧ user_courses.course_id kv.2 = courseId)
            (tbl_user_courses db) !! id = Some r) as Hin
    by (by rewrite Hsingle, lookup_singleton_eq).
  apply map_lookup_filter_Some in Hin as (? & ? & ?). by split_and!.
Qed.

(** X7. The course page and the database agree on the completion flag, and
    "mark as completed" keeps them in agreement: when the page state is
    what [checkLibraryStatus] reads from the database, it still is after
    [handleMarkCompleted], whether the update was accepted or not. *)
Theorem handleMarkCompleted_agrees (uid courseId : uuid) (now : timestamptz)
    (st st' : Learn.State) (db db' : database) :
  checkLibraryStatus uid courseId db = (true, st) →
  handleMarkCompleted now st db = (st', db') →
  checkLibraryStatus uid courseId db' = (true, st').
Proof.
  intros Hpage Hmark.
  destruct (checkLibraryStatus_found _ _ _ _ Hpage)
    as (id & r & Hfilter & Hr & Hu & Hc & ->).
  unfold handleMarkCompleted in Hmark. simpl in Hmark.
  destruct id as [|a id']; [by injection Hmark as <- <-|].
  destruct (update_completion _ None _ _ db) as [d|e] eqn:Hupd;
    [|by injection Hmark as <- <-].
  injection Hmark as <- <-.
  apply (update_completion_Ok _ _ _ _ r) in Hupd; [|done|by left].
  apply update_profile_stats_Ok in Hupd as ->.
  unfold checkLibraryStatus, select_enrollment. simpl.
  rewrite map_filter_insert_True by done.
  rewrite Hfilter, insert_singleton_eq, map_to_list_singleton. simpl.
  do 2 f_equal. by destruct (bool_decide _).
Qed.

Lemma handleMarkCompleted_agrees_witness :
  checkLibraryStatus "user-a" "course-2"
    (handleMarkCompleted "2025-07-01T10:00:00Z"
       (Learn.mk (Some "enrol-2") false) sample.enrolled).2
  = (true,
     (handleMarkCompleted "2025-07-01T10:00:00Z"
        (Learn.mk (Some "enrol-2") false) sample.enrolled).1).
Proof.
  apply (handleMarkCompleted_agrees "user-a" "course-2" "2025-07-01T10:00:00Z"
           (Learn.mk (Some "enrol-2") false) _ sample.enrolled).
  - vm_compute. reflexivity.
  - apply surjective_pairing.
Defined.

(** X8. The user filter that the library page adds to its update and to
    its delete selects the rows that the row-level policies of
    [user_courses] let the session write: what the page's request leaves in
    the database is what the bare statement leaves when the session sends
    it through the policies. *)
Theorem library_filter_is_policy (uid id : uuid) (now : timestamptz)
    (currentStatus : bool) (old : user_courses.Row) (db : database) :
  tbl_user_courses db !! id = Some old →
  commit (toggleCourseCompletion (Some uid) now id currentStatus db) db
  = commit_as (Some uid)
      (UpdateUserCourse id
         (set_completion old (negb currentStatus)
            (if negb currentStatus then Some now else None))) db
  ∧ (removeCourseFromLibrary (Some uid) id db).2
    = commit_as (Some uid) (DeleteUserCourse id) db.
Proof.
  intros Hold. split.
  - unfold toggleCourseCompletion, update_completion, commit_as, exec_as.
    rewrite Hold. unfold policy.own_user_course, sql_eq. simpl.
    destruct (decide (user_courses.user_id old = uid)) as [->|Hne].
    + by rewrite !decide_True by eauto.
    + rewrite decide_False by (intros [|]; congruence).
      rewrite decide_False by congruence. done.
  - unfold removeCourseFromLibrary, commit_as, exec_as.
    rewrite Hold. unfold policy.own_user_course, sql_eq.
    destruct (decide (user_courses.user_id old = uid)) as [->|Hne].
    + rewrite decide_True by done.
      by destruct (exec (DeleteUserCourse id) db).
    + by rewrite decide_False by congruence.
Qed.

Lemma library_filter_is_policy_witness :
  commit (toggleCourseCompletion (Some "user-b") "2025-07-01T10:00:00Z"
            "enrol-2" false sample.enrolled) sample.enrolled
  = commit_as (Some "user-b")
      (UpdateUserCourse "enrol-2"
         (set_completion (sample.enrollment "user-a" "course-2") (negb false)
            (if negb false then Some "2025-07-01T10:00:00Z" else None)))
      sample.enrolled
  ∧ (removeCourseFromLibrary (Some "user-b") "enrol-2" sample.enrolled).2
    = commit_as (Some "user-b") (DeleteUserCourse "enrol-2") sample.enrolled.
Proof.
  apply (library_filter_is_policy "user-b" "enrol-2" "2025-07-01T10:00:00Z"
           false (sample.enrollment "user-a" "course-2") sample.enrolled).
  vm_compute. reflexivity.
Defined.

(** X9. Removing the enrollment the course page found: when the delete is
    accepted the row is gone, the live number of enrollments of the user is
    one less, the profile of the user shows the live counts, and
    [checkLibraryStatus] reports that the course is not in the library. *)
Theorem removeCourseFromLibrary_own (uid courseId id : uuid)
    (flag : bool) (db db' : database) :
  checkLibraryStatus uid courseId db = (true, Learn.mk (Some id) flag) →
  removeCourseFromLibrary (Some uid) id db = (toast_success, db') →
  tbl_user_courses db' = delete id (tbl_user_courses db)
  ∧ count_enrolled (Some uid) (tbl_user_courses db')
    = (count_enrolled (Some uid) (tbl_user_courses db) - 1)%Z
  ∧ stats_consistent uid db'
  ∧ checkLibraryStatus uid courseId db' = (false, Learn.mk None false).
Proof.
  intros Hpage Hrm.
  destruct (checkLibraryStatus_found _ _ _ _ Hpage)
    as (id' & r & Hfilter & Hr & Hu & Hc & [= <- _]).
  unfold removeCourseFromLibrary in Hrm. rewrite Hr in Hrm.
  rewrite decide_True in Hrm by done. simpl in Hrm.
  rewrite (delete_user_courses_Some _ r) in Hrm by done.
  destruct (update_profile_stats _ _) as [d|e] eqn:Hup; [|done].
  injection Hrm as <-.
  pose proof (update_profile_stats_establishes _ _ _ Hup) as Hsync.
  apply update_profile_stats_Ok in Hup as ->. simpl.
  split_and!; [done| |by rewrite <-Hu|].
  - by apply (count_where_delete_old _ _ _ r); [|rewrite Hu].
  - unfold checkLibraryStatus, select_enrollment. simpl.
    rewrite map_filter_delete, Hfilter, delete_singleton_eq.
    by rewrite map_to_list_empty.
Qed.

Lemma removeCourseFromLibrary_own_witness :
  tbl_user_courses (run [DeleteUserCourse "enrol-2"] sample.enrolled)
  = delete "enrol-2" (tbl_user_courses sample.enrolled)
  ∧ count_enrolled (Some "user-a")
      (tbl_user_courses (run [DeleteUserCourse "enrol-2"] sample.enrolled))
    = (count_enrolled (Some "user-a") (tbl_user_courses sample.enrolled) - 1)%Z
  ∧ stats_consistent "user-a"
      (run [DeleteUserCourse "enrol-2"] sample.enrolled)
  ∧ checkLibraryStatus "user-a" "course-2"
      (run [DeleteUserCourse "enrol-2"] sample.enrolled)
    = (false, Learn.mk None false).
Proof.
  apply (removeCourseFromLibrary_own "user-a" "course-2" "enrol-2" false
           sample.enrolled); vm_compute; reflexivity.
Defined.

(** ** Tags of a course *)

Lemma js_trimStart_head s :
  js_trimStart s = [] ∨ ∃ c w, js_trimStart s = c :: w ∧ is_space c = false.
Proof.
  induction s as [|c s IH]; simpl; [by left|].
  destruct (is_space c) eqn:Hc; [done|]. right. by exists c, s.
Qed.

Lemma js_trimStart_id c w :
  is_space c = false → js_trimStart (c :: w) = c :: w.
Proof. intros Hc. simpl. by rewrite Hc. Qed.

Lemma js_trimEnd_idemp s : js_trimEnd (js_trimEnd s) = js_trimEnd s.
Proof.
  induction s as [|c s IH]; simpl; [done|].
  destruct (js_trimEnd s) as [|d w] eqn:Hw.
  - destruct (is_space c) eqn:Hc; simpl; [done|]. by rewrite Hc.
  - simpl in *. by rewrite IH.
Qed.

Lemma js_trimEnd_head c w :
  is_space c = false → ∃ w', js_trimEnd (c :: w) = c :: w'.
Proof.
  intros Hc. simpl. destruct (js_trimEnd w); rewrite ?Hc; by eexists.
Qed.

Lemma js_trim_idemp s : js_trim (js_trim s) = js_trim s.
Proof.
  unfold js_trim.
  destruct (js_trimStart_head s) as [->|(c & w & -> & Hc)]; [done|].
  destruct (js_trimEnd_head c w Hc) as [w' Hw']. rewrite Hw'.
  rewrite (js_trimStart_id _ _ Hc), <-Hw'. apply js_trimEnd_idemp.
Qed.

Lemma js_trimStart_elem x s : x ∈ js_trimStart s → x ∈ s.
Proof.
  induction s as [|c s IH]; simpl; [done|].
  destruct (is_space c); [|done]. intros ?%IH. by right.
Qed.

Lemma js_trimEnd_elem x s : x ∈ js_trimEnd s → x ∈ s.
Proof.
  induction s as [|c s IH]; simpl; [done|].
  destruct (js_trimEnd s) as [|d w].
  - destruct (is_space c); [by intros ?%elem_of_nil|].
    intros ->%list_elem_of_singleton. by left.
  - intros [->|?]%elem_of_cons; [by left|]. right. by apply IH.
Qed.

Lemma js_trim_elem x s : x ∈ js_trim s → x ∈ s.
Proof. intros ?%js_trimEnd_elem. by apply js_trimStart_elem. Qed.

Lemma js_trim_space s : js_trim (space :: s) = js_trim s.
Proof. done. Qed.

Lemma js_split_nonempty s : js_split s ≠ [].
Proof.
  induction s as [|c s IH]; simpl; [done|].
  destruct (N.eqb c comma); [done|]. by destruct (js_split s).
Qed.

Lemma js_split_no_comma s : Forall (λ w, comma ∉ w) (js_split s).
Proof.
  induction s as [|c s IH]; simpl.
  - constructor; [|done]. by intros ?%elem_of_nil.
  - destruct (N.eqb_spec c comma) as [->|Hc].
    + constructor; [|done]. by intros ?%elem_of_nil.
    + destruct (js_split s) as [|w ws] eqn:Hs;
        [by destruct (js_split_nonempty s)|].
      inversion_clear IH as [|?? Hw Hws]. constructor; [|done].
      intros [?|?]%elem_of_cons; [congruence|done].
Qed.

(** A piece without comma in front of a comma is the first piece. *)
Lemma js_split_app w s :
  comma ∉ w → js_split (w ++ comma :: s) = w :: js_split s.
Proof.
  induction w as [|c w IH]; intros Hw; simpl; [done|].
  destruct (N.eqb_spec c comma) as [->|Hc]; [destruct Hw; by left|].
  rewrite IH; [done|]. intros ?. apply Hw. by right.
Qed.

Lemma js_split_one w : comma ∉ w → js_split w = [w].
Proof.
  induction w as [|c w IH]; intros Hw; simpl; [done|].
  destruct (N.eqb_spec c comma) as [->|Hc]; [destruct Hw; by left|].
  rewrite IH; [done|]. intros ?. apply Hw. by right.
Qed.

Lemma tagsArray_space s : tagsArray (space :: s) = tagsArray s.
Proof.
  unfold tagsArray. simpl.
  destruct (js_split s) as [|w ws] eqn:Hs; [by destruct (js_split_nonempty s)|].
  simpl. by rewrite js_trim_space.
Qed.

Lemma tagsArray_app w s :
  clean_tag w → tagsArray (w ++ comma :: s) = w :: tagsArray s.
Proof.
  intros (Hne & Hcomma & Htrim). unfold tagsArray.
  rewrite js_split_app by done. simpl. rewrite Htrim.
  rewrite filter_cons_True; [done|]. destruct w; simpl; [done|lia].
Qed.

Lemma tagsArray_join l :
  Forall clean_tag l → tagsArray (js_join l) = l.
Proof.
  induction 1 as [|w ws Hw Hws IH]; [done|].
  destruct ws as [|w2 ws].
  - simpl. destruct Hw as (Hne & Hcomma & Htrim). unfold tagsArray.
    rewrite js_split_one by done. simpl. rewrite Htrim.
    rewrite filter_cons_True; [done|]. destruct w; simpl; [done|lia].
  - change (js_join (w :: w2 :: ws))
      with (w ++ comma :: space :: js_join (w2 :: ws)).
    rewrite tagsArray_app by done. by rewrite tagsArray_space, IH.
Qed.

Lemma tagsArray_clean tags : Forall clean_tag (tagsArray tags).
Proof.
  unfold tagsArray. apply Forall_forall. intros w Hw.
  apply list_elem_of_filter in Hw as [Hlen Hw].
  apply list_elem_of_fmap in Hw as (p & -> & Hp).
  split_and!.
  - intros Hnil. rewrite Hnil in Hlen. simpl in Hlen. lia.
  - intros ?%js_trim_elem.
    by eapply (proj1 (Forall_forall _ _) (js_split_no_comma tags)).
  - apply js_trim_idemp.
Qed.

(** X10. The tags both forms store are clean: whatever is typed in the
    field, when a tag list is sent it is not empty and each of its tags is
    non-empty, has no comma and has no white space at either end. *)
Theorem tags_of_form_clean (tags : js_string) (l : list js_string) :
  tags_of_form tags = Some l → l ≠ [] ∧ Forall clean_tag l.
Proof.
  unfold tags_of_form. pose proof (tagsArray_clean tags) as Hclean.
  destruct (tagsArray tags) as [|w ws]; [done|]. by intros [= <-].
Qed.

(** The field [" rocq,, proofs , "] gives the tags ["rocq"] and
    ["proofs"]. *)
Lemma tags_of_form_clean_witness :
  [[114; 111; 99; 113]; [112; 114; 111; 111; 102; 115]]%N ≠ []
  ∧ Forall clean_tag [[114; 111; 99; 113]; [112; 114; 111; 111; 102; 115]]%N.
Proof.
  apply (tags_of_form_clean
           [32; 114; 111; 99; 113; 44; 44; 32; 112; 114; 111; 111; 102; 115;
            32; 44; 32]%N).
  vm_compute. reflexivity.
Defined.

(** X11. The edit form gives back the tags it was opened with: a stored
    list of clean tags, joined into the field and split again on saving, is
    the same list; a null column stays null. *)
Theorem tags_round_trip (tags : option (list js_string)) :
  match tags with
  | Some l => l ≠ [] ∧ Forall clean_tag l
  | None => True
  end →
  tags_of_form (form_of_tags tags) = tags.
Proof.
  destruct tags as [l|]; [|done]. intros [Hne Hclean].
  unfold tags_of_form, form_of_tags. rewrite tagsArray_join by done.
  by destruct l.
Qed.

Lemma tags_round_trip_witness :
  tags_of_form
    (form_of_tags
       (Some [[114; 111; 99; 113]; [112; 114; 111; 111; 102; 115]]%N))
  = Some [[114; 111; 99; 113]; [112; 114; 111; 111; 102; 115]]%N.
Proof.
  apply (tags_round_trip
           (Some [[114; 111; 99; 113]; [112; 114; 111; 111; 102; 115]]%N)).
  split; [done|]. apply (bool_decide_unpack _). vm_compute. exact I.
Defined.

(** X12. Saving the edit form without touching the tags field keeps what
    a form stored before, whatever had been typed then; only an empty array
    (which no form stores) comes back as null. *)
Theorem tags_resave (tags : js_string) :
  tags_of_form (form_of_tags (tags_of_form tags)) = tags_of_form tags
  ∧ tags_of_form (form_of_tags (Some [])) = None.
Proof.
  split; [|done]. unfold tags_of_form at 2 3.
  pose proof (tagsArray_clean tags) as Hclean.
  destruct (tagsArray tags) as [|w ws] eqn:Htags; [done|].
  unfold tags_of_form, form_of_tags. by rewrite tagsArray_join.
Qed.

(** ** The avatar seed and the profile form *)

Lemma match_seed_avatarUrl seed :
  match_seed (avatarUrl seed) = Some (until_amp seed).
Proof. vm_compute. reflexivity. Qed.

Lemma until_amp_id seed :
  "&"%char ∉ Stdlib.Strings.String.list_ascii_of_string seed → until_amp seed = seed.
Proof.
  induction seed as [|c seed IH]; simpl; [done|]. intros Hamp.
  rewrite decide_False by (intros ->; apply Hamp; by left).
  rewrite IH; [done|]. intros ?. apply Hamp. by right.
Qed.

Lemma seed_of_avatarUrl seed user_id :
  seed_of_avatar (Some (avatarUrl seed)) user_id = until_amp seed.
Proof.
  unfold seed_of_avatar.
  destruct (avatarUrl seed) as [|a u] eqn:Hurl; [done|].
  by rewrite <-Hurl, match_seed_avatarUrl.
Qed.

(** X13. The seed read back from a stored avatar address is the seed the
    address was made from, cut at its first ["&"]: seeds without ["&"] come
    back whole. *)
Theorem avatar_seed_round_trip (seed : string) (user_id : uuid) :
  seed_of_avatar (Some (avatarUrl seed)) user_id = until_amp seed
  ∧ ("&"%char ∉ Stdlib.Strings.String.list_ascii_of_string seed →
     seed_of_avatar (Some (avatarUrl seed)) user_id = seed).
Proof.
  pose proof (seed_of_avatarUrl seed user_id) as Hcut.
  split; [done|]. intros Hamp. by rewrite Hcut, until_amp_id.
Qed.

Lemma avatar_seed_round_trip_witness :
  seed_of_avatar (Some (avatarUrl "k3x9qf0z")) "user-a" = "k3x9qf0z".
Proof.
  apply (proj2 (avatar_seed_round_trip "k3x9qf0z" "user-a")).
  apply (bool_decide_unpack _). vm_compute. exact I.
Defined.

Lemma filter_fmap_stable {A} (P : uuid * A → Prop) `{!∀ x, Decision (P x)}
    (f : A → A) (m : gmap uuid A) :
  (∀ k x, P (k, f x) ↔ P (k, x)) →
  filter P (f <$> m) = f <$> filter P m.
Proof.
  intros Hf. apply map_eq. intros i. apply option_eq. intros y.
  rewrite map_lookup_filter_Some, !lookup_fmap, !fmap_Some. split.
  - intros [(x & Hx & ->) Hy]. exists x. split; [|done].
    apply map_lookup_filter_Some. split; [done|]. by apply Hf.
  - intros (x & [Hx HP]%map_lookup_filter_Some & ->).
    split; [by exists x|]. by apply Hf.
Qed.

(** X14. The profile form shows what it saved: after [updateProfile], for a
    user with one profile row, [fetchProfile] fills the form with the name
    that was submitted and with the seed that was submitted, cut at its
    first ["&"]. *)
Theorem profile_form_round_trip (uid : uuid) (fullName avatarSeed : string)
    (now : timestamptz) (db db' : database) :
  is_Some (fetchProfile uid db) →
  updateProfile (Some uid) fullName avatarSeed now db = Ok db' →
  fetchProfile uid db' = Some (fullName, until_amp avatarSeed).
Proof.
  intros [shown Hshown] [= <-]. unfold fetchProfile, select_profile in *.
  destruct (single _) as [[id p]|] eqn:Hsingle; [|done].
  apply single_map_to_list in Hsingle. simpl.
  assert (profiles.user_id p = uid) as Hu.
  { assert (filter (λ kv, profiles.user_id kv.2 = uid) (tbl_profiles db)
              !! id = Some p) as Hin
      by (by rewrite Hsingle, lookup_singleton_eq).
    by apply map_lookup_filter_Some in Hin as [_ ?]. }
  rewrite filter_fmap_stable by (intros k q; simpl; by case_decide).
  rewrite Hsingle, map_fmap_singleton, map_to_list_singleton.
  cbn [single]. rewrite decide_True by done.
  cbn [profiles.full_name profiles.avatar_url default].
  by rewrite seed_of_avatarUrl.
Qed.

Lemma profile_form_round_trip_witness :
  fetchProfile "user-a"
    (commit (updateProfile (Some "user-a") "Ann B." "k3x&9q"
               "2025-07-02T08:00:00Z" sample.enrolled) sample.enrolled)
  = Some ("Ann B.", until_amp "k3x&9q").
Proof.
  apply (profile_form_round_trip "user-a" "Ann B." "k3x&9q"
           "2025-07-02T08:00:00Z" sample.enrolled).
  - vm_compute. by eexists.
  - reflexivity.
Defined.

(** ** The dashboard *)

Lemma length_filter_map_to_list {A} (P : uuid * A → Prop)
    `{!∀ x, Decision (P x)} (m : gmap uuid A) :
  length (filter P (map_to_list m)) = size (filter P m).
Proof.
  induction m as [|k x m Hk IH] using map_ind.
  - by rewrite map_to_list_empty, map_filter_empty, map_size_empty.
  - rewrite map_to_list_insert by done. rewrite filter_cons.
    destruct (decide (P (k, x))) as [HP|HP].
    + rewrite map_filter_insert_True by done.
      rewrite map_size_insert_None
        by (apply map_lookup_filter_None; by left).
      simpl. by rewrite IH.
    + rewrite map_filter_insert_not' by (done || by intros y; rewrite Hk).
      done.
Qed.

Lemma length_map_to_list_filter {A} (P : uuid * A → Prop)
    `{!∀ x, Decision (P x)} (m : gmap uuid A) :
  length (map_to_list (filter P m)) = size (filter P m).
Proof. apply length_map_to_list. Qed.

(** The numbers the dashboard counts itself are the live counts. *)
Lemma dashboard_counts uid db :
  Z.of_nat (length (filter (λ uc, user_courses.completed uc.2 = Some true)
                      (map_to_list
                         (filter (λ kv, user_courses.user_id kv.2 = uid)
                            (tbl_user_courses db)))))
  = count_completed (Some uid) (tbl_user_courses db)
  ∧ Z.of_nat (length (map_to_list
                        (filter (λ kv, user_courses.user_id kv.2 = uid)
                           (tbl_user_courses db))))
    = count_enrolled (Some uid) (tbl_user_courses db)
  ∧ Z.of_nat (length (map_to_list
                        (filter (λ kv, courses.uploader_id kv.2 = uid)
                           (tbl_courses db))))
    = count_uploads (Some uid) (tbl_courses db).
Proof.
  unfold count_completed, count_enrolled, count_uploads, count_where.
  split_and!; f_equal.
  - rewrite length_filter_map_to_list, map_filter_filter.
    f_equal. apply map_filter_ext. intros k r _. simpl.
    rewrite sql_eq_Some. tauto.
  - rewrite length_map_to_list. f_equal. apply map_filter_ext.
    intros k r _. simpl. by rewrite sql_eq_Some.
  - rewrite length_map_to_list. f_equal. apply map_filter_ext.
    intros k r _. simpl. by rewrite sql_eq_Some.
Qed.

(** X15. The dashboard shows the live counts whenever the stored counters
    are in sync, and also when the profile cannot be read: the numbers it
    counts from the fetched enrollments and uploads are those
    [update_profile_stats] would store. *)
Theorem fetchDashboardData_live (uid : uuid) (db : database) :
  stats_consistent uid db →
  fetchDashboardData uid db
  = Dashboard.mk (count_completed (Some uid) (tbl_user_courses db))
      (count_enrolled (Some uid) (tbl_user_courses db))
      (count_uploads (Some uid) (tbl_courses db)).
Proof.
  intros Hsync. unfold fetchDashboardData, select_profile.
  destruct (dashboard_counts uid db) as (Hc & He & Hn).
  destruct (single _) as [[id p]|] eqn:Hsingle.
  - apply single_map_to_list in Hsingle.
    assert (filter (λ kv, profiles.user_id kv.2 = uid) (tbl_profiles db)
              !! id = Some p) as Hin
      by (by rewrite Hsingle, lookup_singleton_eq).
    apply map_lookup_filter_Some in Hin as [Hp Hu]. simpl in Hu.
    destruct (Hsync id p Hp Hu) as (He' & Hc' & Hn').
    rewrite Hu in He', Hc', Hn'. by rewrite He', Hc', Hn'.
  - by rewrite Hc, He, Hn.
Qed.

Lemma fetchDashboardData_live_witness :
  fetchDashboardData "user-c" sample.enrolled
  = Dashboard.mk
      (count_completed (Some "user-c") (tbl_user_courses sample.enrolled))
      (count_enrolled (Some "user-c") (tbl_user_courses sample.enrolled))
      (count_uploads (Some "user-c") (tbl_courses sample.enrolled))
  ∧ fetchDashboardData "user-a" sample.enrolled
    = Dashboard.mk
        (count_completed (Some "user-a") (tbl_user_courses sample.enrolled))
        (count_enrolled (Some "user-a") (tbl_user_courses sample.enrolled))
        (count_uploads (Some "user-a") (tbl_courses sample.enrolled)).
Proof.
  split.
  - apply (fetchDashboardData_live "user-c" sample.enrolled).
    apply (bool_decide_unpack _). vm_compute. exact I.
  - apply (fetchDashboardData_live "user-a" sample.enrolled).
    apply (bool_decide_unpack _). vm_compute. exact I.
Defined.

(** ** Deleting a course from the dashboard *)

Lemma delete_triggers_tables
    (l : list (uuid * user_courses.Row)) (d0 d : database) :
  foldr (λ kv acc, acc ≫= trigger_update_profile_stats (TgDelete kv.2))
    (Ok d0) l = Ok d →
  auth_users d = auth_users d0
  ∧ tbl_courses d = tbl_courses d0
  ∧ tbl_user_courses d = tbl_user_courses d0.
Proof.
  revert d. induction l as [|kv l IH]; intros d; simpl.
  - by intros [= <-].
  - intros (d1 & Hd1 & Htrig)%result_bind_Ok.
    rewrite trigger_update_profile_stats_eq in Htrig.
    apply update_profile_stats_tables in Htrig as (-> & -> & ->).
    by apply IH.
Qed.

Lemma delete_user_courses_where_Ok (P : user_courses.Row → Prop)
    `{!∀ r, Decision (P r)} db db1 :
  delete_user_courses_where P db = Ok db1 →
  auth_users db1 = auth_users db
  ∧ tbl_courses db1 = tbl_courses db
  ∧ tbl_user_courses db1 = filter (λ kv, ¬ P kv.2) (tbl_user_courses db).
Proof. intros Hdel. by apply delete_triggers_tables in Hdel. Qed.

(** X16. Deleting a course is not one transaction.  When somebody else
    is still enrolled in a course of the caller, the course stays (the
    delete is refused and the page shows its error), but the caller's own
    enrollment in it has already been removed by the first request. *)
Theorem handleDeleteCourse_not_atomic (uid courseId k : uuid)
    (old : courses.Row) (r : user_courses.Row) (db : database) :
  tbl_courses db !! courseId = Some old →
  courses.uploader_id old = uid →
  tbl_user_courses db !! k = Some r →
  user_courses.course_id r = courseId →
  user_courses.user_id r ≠ uid →
  let db1 :=
    commit (delete_user_courses_where
              (λ r, user_courses.course_id r = courseId
                    ∧ policy.own_user_course (Some uid) r) db) db in
  handleDeleteCourse (Some uid) true courseId db = (Some toast_error, db1)
  ∧ tbl_courses db1 !! courseId = Some old
  ∧ (db1 = db
     ∨ tbl_user_courses db1
       = filter (λ kv, ¬ (user_courses.course_id kv.2 = courseId
                          ∧ user_courses.user_id kv.2 = uid))
           (tbl_user_courses db)).
Proof.
  intros Hold Hup Hr Hc Hother db1.
  assert (tbl_courses db1 = tbl_courses db
          ∧ tbl_user_courses db1 !! k = Some r
          ∧ (db1 = db
             ∨ tbl_user_courses db1
               = filter (λ kv, ¬ (user_courses.course_id kv.2 = courseId
                                  ∧ user_courses.user_id kv.2 = uid))
                   (tbl_user_courses db))) as (Hcourses & Hr1 & Hrows).
  { subst db1.
    destruct (delete_user_courses_where _ db) as [d|e] eqn:Hdel; simpl;
      [|by auto].
    apply delete_user_courses_where_Ok in Hdel as (_ & -> & ->).
    assert (∀ kv : uuid * user_courses.Row,
              ¬ (user_courses.course_id kv.2 = courseId
                 ∧ policy.own_user_course (Some uid) kv.2)
              ↔ ¬ (user_courses.course_id kv.2 = courseId
                   ∧ user_courses.user_id kv.2 = uid)) as Hiff.
    { intros kv. unfold policy.own_user_course. by rewrite sql_eq_Some. }
    split_and!; [done| |right; apply map_filter_ext; by intros ???].
    apply map_lookup_filter_Some. split; [done|]. simpl.
    unfold policy.own_user_course. rewrite sql_eq_Some. tauto. }
  split_and!; [|by rewrite Hcourses|done].
  unfold handleDeleteCourse. fold db1. rewrite Hcourses, Hold.
  rewrite decide_True by done. simpl. unfold delete_courses.
  rewrite Hcourses, Hold.
  rewrite (check_fail (¬ course_referenced _ _)); [done|].
  intros Hfree. apply Hfree. by exists k, r.
Qed.

Lemma handleDeleteCourse_not_atomic_witness :
  handleDeleteCourse (Some "user-a") true "course-1" shared.db
  = (Some toast_error,
     commit (delete_user_courses_where
               (λ r, user_courses.course_id r = "course-1"
                     ∧ policy.own_user_course (Some "user-a") r) shared.db)
       shared.db)
  ∧ tbl_courses
      (commit (delete_user_courses_where
                 (λ r, user_courses.course_id r = "course-1"
                       ∧ policy.own_user_course (Some "user-a") r) shared.db)
         shared.db) !! "course-1"
    = Some (sample.course "user-a" "Rocq")
  ∧ (commit (delete_user_courses_where
               (λ r, user_courses.course_id r = "course-1"
                     ∧ policy.own_user_course (Some "user-a") r) shared.db)
       shared.db = shared.db
     ∨ tbl_user_courses
         (commit (delete_user_courses_where
                    (λ r, user_courses.course_id r = "course-1"
                          ∧ policy.own_user_course (Some "user-a") r)
                    shared.db) shared.db)
       = filter (λ kv, ¬ (user_courses.course_id kv.2 = "course-1"
                          ∧ user_courses.user_id kv.2 = "user-a"))
           (tbl_user_courses shared.db)).
Proof.
  apply (handleDeleteCourse_not_atomic "user-a" "course-1" "enrol-b"
           (sample.course "user-a" "Rocq")
           (new_enrollment "user-b" "course-1" "2025-07-01T10:00:00Z")
           shared.db); try (vm_compute; reflexivity).
  vm_compute. discriminate.
Defined.

(** X17. When [handleDeleteCourse] reports success on a course of the
    caller, the course is gone and nothing references it; every enrollment
    that was in it belonged to the caller and is gone too, the other
    enrollments are as before; the caller has one upload less and a
    profile that shows the live counts. *)
Theorem handleDeleteCourse_success (uid courseId : uuid) (old : courses.Row)
    (db db2 : database) :
  tbl_courses db !! courseId = Some old →
  courses.uploader_id old = uid →
  handleDeleteCourse (Some uid) true courseId db = (Some toast_success, db2) →
  tbl_courses db2 = delete courseId (tbl_courses db)
  ∧ ¬ course_referenced courseId db2
  ∧ (∀ k r, tbl_user_courses db !! k = Some r →
       if decide (user_courses.course_id r = courseId)
       then user_courses.user_id r = uid ∧ tbl_user_courses db2 !! k = None
       else tbl_user_courses db2 !! k = Some r)
  ∧ count_uploads (Some uid) (tbl_courses db2)
    = (count_uploads (Some uid) (tbl_courses db) - 1)%Z
  ∧ stats_consistent uid db2.
Proof.
  intros Hold Hup. unfold handleDeleteCourse.
  remember (commit (delete_user_courses_where
                      (λ r, user_courses.course_id r = courseId
                            ∧ policy.own_user_course (Some uid) r) db) db)
    as db1 eqn:Hdb1. cbn zeta.
  assert (tbl_courses db1 = tbl_courses db
          ∧ (tbl_user_courses db1 = tbl_user_courses db
             ∨ tbl_user_courses db1
               = filter (λ kv, ¬ (user_courses.course_id kv.2 = courseId
                                  ∧ policy.own_user_course (Some uid) kv.2))
                   (tbl_user_courses db))) as (Hcourses & Hrows).
  { subst db1.
    destruct (delete_user_courses_where _ db) as [d|e] eqn:Hdel; simpl;
      [|by auto].
    apply delete_user_courses_where_Ok in Hdel as (_ & -> & ->). auto. }
  rewrite Hcourses, Hold. rewrite decide_True by done. simpl.
  destruct (delete_courses courseId db1) as [d2|e] eqn:Hdel; [|done].
  intros [= <-]. unfold delete_courses in Hdel.
  rewrite Hcourses, Hold in Hdel.
  apply result_bind_Ok in Hdel as ([] & Hfree%check_Ok & Hdel).
  rewrite trigger_update_upload_stats_eq, Hup in Hdel.
  pose proof (update_profile_stats_establishes _ _ _ Hdel) as Hsync.
  apply update_profile_stats_Ok in Hdel as ->. simpl.
  split_and!; [done|done| | |done].
  - intros k r Hr. case_decide as Hc.
    + destruct Hrows as [Hrows|Hrows].
      * destruct Hfree. exists k, r. by rewrite Hrows.
      * destruct (decide (user_courses.user_id r = uid)) as [Hu|Hu].
        -- split; [done|]. rewrite Hrows. apply map_lookup_filter_None.
           right. intros r' ? Hnot. simplify_eq. apply Hnot. simpl.
           split; [done|]. by apply sql_eq_Some.
        -- destruct Hfree. exists k, r. split; [|done]. rewrite Hrows.
           apply map_lookup_filter_Some. split; [done|]. simpl.
           unfold policy.own_user_course. rewrite sql_eq_Some. tauto.
    + destruct Hrows as [-> | ->]; [done|].
      apply map_lookup_filter_Some. split; [done|]. simpl. tauto.
  - apply (count_where_delete_old _ _ _ old); [done|].
    by apply sql_eq_Some.
Qed.

Lemma handleDeleteCourse_success_witness :
  tbl_courses (handleDeleteCourse (Some "user-a") true "course-2"
                 shared.db).2
  = delete "course-2" (tbl_courses shared.db)
  ∧ ¬ course_referenced "course-2"
        (handleDeleteCourse (Some "user-a") true "course-2" shared.db).2
  ∧ (∀ k r, tbl_user_courses shared.db !! k = Some r →
       if decide (user_courses.course_id r = "course-2")
       then user_courses.user_id r = "user-a"
            ∧ tbl_user_courses
                (handleDeleteCourse (Some "user-a") true "course-2"
                   shared.db).2 !! k = None
       else tbl_user_courses
              (handleDeleteCourse (Some "user-a") true "course-2"
                 shared.db).2 !! k = Some r)
  ∧ count_uploads (Some "user-a")
      (tbl_courses
         (handleDeleteCourse (Some "user-a") true "course-2" shared.db).2)
    = (count_uploads (Some "user-a") (tbl_courses shared.db) - 1)%Z
  ∧ stats_consistent "user-a"
      (handleDeleteCourse (Some "user-a") true "course-2" shared.db).2.
Proof.
  apply (handleDeleteCourse_success "user-a" "course-2"
           (sample.course "user-a" "SQL") shared.db);
    vm_compute; reflexivity.
Defined.

(** ** Integrity of the tables *)

Lemma exec_accepted st db db' :
  exec st db = Ok db' →
  db' = db
  ∨ (accepted st db
     ∧ ∃ V, db' = with_profiles (mutated st db)
                    (recomputed (Some V) (mutated st db))).
Proof.
  destruct st as [id new|id new|id|id new|id new|id]; simpl.
  - unfold insert_user_courses. intros H.
    repeat (apply result_bind_Ok in H as ([] & ?%check_Ok & H)).
    rewrite trigger_update_profile_stats_eq in H.
    apply update_profile_stats_Ok in H. right. eauto 10.
  - unfold update_user_courses.
    destruct (tbl_user_courses db !! id) as [old|] eqn:Hold;
      [|intros [= <-]; by left].
    intros H.
    repeat (apply result_bind_Ok in H as ([] & ?%check_Ok & H)).
    rewrite trigger_update_profile_stats_eq in H.
    apply update_profile_stats_Ok in H. right. eauto 10.
  - unfold delete_user_courses.
    destruct (tbl_user_courses db !! id) as [old|] eqn:Hold;
      [|intros [= <-]; by left].
    intros H. rewrite trigger_update_profile_stats_eq in H.
    apply update_profile_stats_Ok in H. right. eauto.
  - unfold insert_courses. intros H.
    repeat (apply result_bind_Ok in H as ([] & ?%check_Ok & H)).
    rewrite trigger_update_upload_stats_eq in H.
    apply update_profile_stats_Ok in H. right. eauto 10.
  - unfold update_courses.
    destruct (tbl_courses db !! id) as [old|] eqn:Hold;
      [|intros [= <-]; by left].
    intros H.
    repeat (apply result_bind_Ok in H as ([] & ?%check_Ok & H)).
    rewrite trigger_update_upload_stats_eq in H.
    apply update_profile_stats_Ok in H. right. eauto 10.
  - unfold delete_courses.
    destruct (tbl_courses db !! id) as [old|] eqn:Hold;
      [|intros [= <-]; by left].
    intros H.
    repeat (apply result_bind_Ok in H as ([] & ?%check_Ok & H)).
    rewrite trigger_update_upload_stats_eq in H.
    apply update_profile_stats_Ok in H. right. eauto.
Qed.

Lemma has_profile_fmap (f : profiles.Row → profiles.Row) u db t :
  (∀ p, profiles.user_id (f p) = profiles.user_id p) →
  t = f <$> tbl_profiles db →
  has_profile u db → has_profile u (with_profiles db t).
Proof.
  intros Hf -> (id & p & Hp & Hu). exists id, (f p). simpl.
  rewrite lookup_fmap, Hp. split; [done|]. by rewrite Hf.
Qed.

(** Rewriting columns of profile rows other than [user_id] keeps both
    invariants. *)
Lemma integrity_fmap_profiles (f : profiles.Row → profiles.Row) db :
  (∀ p, profiles.user_id (f p) = profiles.user_id p) →
  referential_integrity db ∧ keys_unique db →
  referential_integrity (with_profiles db (f <$> tbl_profiles db))
  ∧ keys_unique (with_profiles db (f <$> tbl_profiles db)).
Proof.
  intros Hf [(Huc & Hc & Hp) [Hpair Huser]]. split; [split_and!|split].
  - done.
  - intros id c Hid. destruct (Hc id c Hid) as [? ?]. split; [done|].
    by eapply has_profile_fmap.
  - intros id p. simpl. rewrite lookup_fmap.
    destruct (tbl_profiles db !! id) as [q|] eqn:Hq; [|done]. simpl.
    intros [= <-]. rewrite Hf. by eapply Hp.
  - done.
  - intros k1 k2 p1 p2. simpl. rewrite !lookup_fmap.
    destruct (tbl_profiles db !! k1) as [q1|] eqn:Hq1; [|done].
    destruct (tbl_profiles db !! k2) as [q2|] eqn:Hq2; [|done].
    simpl. intros [= <-] [= <-]. rewrite !Hf. by eapply Huser.
Qed.

Lemma integrity_recomputed u db :
  referential_integrity db ∧ keys_unique db →
  referential_integrity (with_profiles db (recomputed u db))
  ∧ keys_unique (with_profiles db (recomputed u db)).
Proof.
  unfold recomputed. apply integrity_fmap_profiles.
  intros p. unfold set_stats_where. by case_decide.
Qed.

Lemma integrity_mutated st db :
  accepted st db →
  referential_integrity db ∧ keys_unique db →
  referential_integrity (mutated st db) ∧ keys_unique (mutated st db).
Proof.
  intros Hacc [(Huc & Hc & Hp) [Hpair Huser]].
  destruct st as [id new|id new|id|id new|id new|id]; simpl in Hacc.
  - destruct Hacc as (Hfresh & Hfree & Hu & Hco).
    split; [split_and!|split]; simpl; try done.
    + apply map_Forall_insert_2; [done|]. apply Huc.
    + intros k1 k2 r1 r2 H1 H2 Hu12 Hc12.
      destruct (decide (k1 = id)) as [->|N1], (decide (k2 = id)) as [->|N2];
        [done| | |].
      * rewrite lookup_insert_eq in H1. rewrite lookup_insert_ne in H2 by done.
        injection H1 as <-. destruct Hfree. exists k2, r2. eauto.
      * rewrite lookup_insert_eq in H2. rewrite lookup_insert_ne in H1 by done.
        injection H2 as <-. destruct Hfree. exists k1, r1. eauto.
      * rewrite lookup_insert_ne in H1, H2 by done. eauto.
  - destruct Hacc as (old & Hold & Hfree & Hu & Hco).
    destruct (Huc id old Hold) as [Huo Hcoo].
    split; [split_and!|split]; simpl; try done.
    + apply map_Forall_insert_2; [|apply Huc]. split.
      * destruct Hu as [->|]; done.
      * destruct Hco as [->|]; done.
    + intros k1 k2 r1 r2 H1 H2 Hu12 Hc12.
      destruct (decide (k1 = id)) as [->|N1], (decide (k2 = id)) as [->|N2];
        [done| | |].
      * rewrite lookup_insert_eq in H1. rewrite lookup_insert_ne in H2 by done.
        injection H1 as <-. destruct Hfree. exists k2, r2. eauto.
      * rewrite lookup_insert_eq in H2. rewrite lookup_insert_ne in H1 by done.
        injection H2 as <-. destruct Hfree. exists k1, r1. eauto.
      * rewrite lookup_insert_ne in H1, H2 by done. eauto.
  - split; [split_and!|split]; simpl; try done.
    + intros k r [_ Hr]%lookup_delete_Some. by eapply Huc.
    + intros k1 k2 r1 r2 [_ H1]%lookup_delete_Some [_ H2]%lookup_delete_Some.
      eauto.
  - destruct Hacc as (Hfresh & Hu & Hpr).
    split; [split_and!|split]; simpl; try done.
    + intros k r Hr. destruct (Huc k r Hr) as [? ?]. split; [done|].
      destruct (decide (user_courses.course_id r = id)) as [->|N].
      * rewrite lookup_insert_eq. eauto.
      * by rewrite lookup_insert_ne.
    + apply map_Forall_insert_2; [done|]. apply Hc.
  - destruct Hacc as (old & Hold & Hu).
    destruct (Hc id old Hold) as [Huo Hpo].
    split; [split_and!|split]; simpl; try done.
    + intros k r Hr. destruct (Huc k r Hr) as [? ?]. split; [done|].
      destruct (decide (user_courses.course_id r = id)) as [->|N].
      * rewrite lookup_insert_eq. eauto.
      * by rewrite lookup_insert_ne.
    + apply map_Forall_insert_2; [|apply Hc].
      destruct Hu as [->|]; done.
  - split; [split_and!|split]; simpl; try done.
    + intros k r Hr. destruct (Huc k r Hr) as [? ?]. split; [done|].
      rewrite lookup_delete_ne; [done|].
      intros E. destruct Hacc. exists k, r. eauto.
    + intros k c [_ Hk]%lookup_delete_Some. by eapply Hc.
Qed.

Lemma integrity_exec st db db' :
  exec st db = Ok db' →
  referential_integrity db ∧ keys_unique db →
  referential_integrity db' ∧ keys_unique db'.
Proof.
  intros [->|(Hacc & V & ->)]%exec_accepted Hinv; [done|].
  by apply integrity_recomputed, integrity_mutated.
Qed.

Lemma integrity_sign_up new_id meta_full_name id now db db' :
  insert_auth_users new_id meta_full_name id now db = Ok db' →
  referential_integrity db ∧ keys_unique db →
  referential_integrity db' ∧ keys_unique db'.
Proof.
  unfold insert_auth_users, handle_new_user.
  intros H [(Huc & Hc & Hp) [Hpair Huser]].
  repeat (apply result_bind_Ok in H as ([] & ?%check_Ok & H)).
  injection H as <-. simpl in *.
  split; [split_and!|split]; simpl; try done.
  - intros k r Hr. destruct (Huc k r Hr) as [? ?]. split; [|done].
    apply elem_of_union. by right.
  - intros k c Hk. destruct (Hc k c Hk) as [? (j & p & Hj & Hpu)]. split.
    + apply elem_of_union. by right.
    + exists j, p. split; [|done]. simpl.
      rewrite lookup_insert_ne; [done|]. congruence.
  - apply map_Forall_insert_2; [done|].
    intros k p Hk. apply elem_of_union. right. by eapply Hp.
  - intros k1 k2 p1 p2 Hk1 Hk2 Hu12.
    destruct (decide (k1 = id)) as [->|N1], (decide (k2 = id)) as [->|N2];
      [done| | |].
    + rewrite lookup_insert_eq in Hk1. rewrite lookup_insert_ne in Hk2 by done.
      injection Hk1 as <-. simpl in Hu12.
      match goal with Hn : ¬ has_profile _ _ |- _ => destruct Hn end.
      exists k2, p2. eauto.
    + rewrite lookup_insert_eq in Hk2. rewrite lookup_insert_ne in Hk1 by done.
      injection Hk2 as <-. simpl in Hu12.
      match goal with Hn : ¬ has_profile _ _ |- _ => destruct Hn end.
      exists k1, p1. eauto.
    + rewrite lookup_insert_ne in Hk1, Hk2 by done. eauto.
Qed.

(** X18.  In every database the repository's writes can reach, each
    foreign key points at a row that is there (an enrollment's user and
    course, a course's uploader and their profile, a profile's user), no
    user is enrolled twice in one course, and no user has two profiles. *)
Theorem integrity_invariant db :
  reachable db → referential_integrity db ∧ keys_unique db.
Proof.
  induction 1 as [|st db db' _ IH Hexec|new_id fn id now db db' _ IH Hs
                  |user fullName avatarSeed now db db' _ IH Hup].
  - split; [split_and!|split]; try done;
      simpl; intros ? ? ? ?; by rewrite lookup_empty.
  - by eapply integrity_exec.
  - by eapply integrity_sign_up.
  - unfold updateProfile in Hup. destruct user as [uid|]; [|done].
    injection Hup as <-. apply integrity_fmap_profiles; [|done].
    intros p. by case_decide.
Qed.

Lemma integrity_invariant_witness :
  reachable sample.reassigned
  ∧ referential_integrity sample.reassigned ∧ keys_unique sample.reassigned.
Proof.
  split; [apply reachable_sample|].
  apply (integrity_invariant sample.reassigned), reachable_sample.
Defined.

(** ** Direct writes to a profile *)

(** [handle_new_user] is the [INSERT] of a row that names [user_id] and
    [full_name] and takes the defaults elsewhere. *)
Lemma handle_new_user_insert_profiles new_id meta_full_name id now db :
  handle_new_user new_id meta_full_name id now db
  = insert_profiles id
      (profiles.mk new_id meta_full_name None profiles.user now now
         (Some 0%Z) (Some 0%Z) (Some 0%Z)) db.
Proof.
  unfold handle_new_user, insert_profiles.
  rewrite (check_pass (counters_int4 _)); [done|].
  unfold counters_int4, int4, int4_min, int4_max. simpl. lia.
Qed.

(** The profile form is such a request: for a user with one profile row,
    [updateProfile] is the [UPDATE] of that row sent through the policy,
    and it leaves the counters alone. *)
Lemma updateProfile_is_request (uid id : uuid) (old : profiles.Row)
    (fullName avatarSeed : string) (now : timestamptz) (db : database) :
  tbl_profiles db !! id = Some old →
  profiles.user_id old = uid →
  (∀ k p, tbl_profiles db !! k = Some p → profiles.user_id p = uid → k = id) →
  counters_int4 old →
  let new :=
    profiles.mk (profiles.user_id old) (Some fullName)
      (Some (avatarUrl avatarSeed)) (profiles.role old)
      (profiles.created_at old) now (profiles.completed old)
      (profiles.enrolled old) (profiles.uploads old) in
  keeps_counters (UpdateProfile id new) db
  ∧ updateProfile (Some uid) fullName avatarSeed now db
    = Ok (commit_request (Some uid) (OnProfile (UpdateProfile id new)) db).
Proof.
  intros Hold Hu Hone Hint. simpl. split.
  - by rewrite Hold.
  - unfold commit_request, request_as, exec_profile_as. rewrite Hold.
    rewrite decide_True by (unfold policy.own_profile, sql_eq; congruence).
    rewrite decide_True
      by (unfold policy.own_profile, sql_eq; simpl; congruence).
    simpl. unfold update_profiles. rewrite Hold.
    rewrite (check_pass (counters_int4 _)) by done.
    rewrite (check_pass (¬ user_id_taken id _ (tbl_profiles db))).
    2:{ intros (k & p & Hp & Hk & Hup). simpl in Hup. apply Hk.
        apply (Hone k p Hp). congruence. }
    rewrite (check_pass (_ ∨ _ ∈ auth_users db)) by (by left).
    rewrite (check_pass (_ ∨ ¬ uploader_referenced _ db)) by (by left).
    simpl. unfold updateProfile, with_profiles. do 2 f_equal.
    apply map_eq. intros k. rewrite lookup_fmap.
    destruct (decide (k = id)) as [->|Hk].
    + rewrite lookup_insert_eq, Hold. simpl. by rewrite decide_True.
    + rewrite lookup_insert_ne by done.
      destruct (tbl_profiles db !! k) as [p|] eqn:Hp; [|done]. simpl.
      rewrite decide_False; [done|]. intros Hup. by apply Hk, (Hone k p).
Qed.

(** X19. "Users can update own profile" guards the row, not its columns.
    The owner of a profile row can store any image of it that keeps their
    [user_id]: any role, and counters that are any 32-bit integers or
    NULL.  A session that gives itself the role premium or admin reads
    every approved premium course from then on, and one that stores
    counters other than the live counts is out of sync. *)
Theorem own_profile_write (uid id : uuid) (old new : profiles.Row)
    (db : database) :
  tbl_profiles db !! id = Some old →
  profiles.user_id old = uid →
  profiles.user_id new = uid →
  counters_int4 new →
  ¬ user_id_taken id new (tbl_profiles db) →
  let db' := with_profiles db (<[id:=new]> (tbl_profiles db)) in
  exec_profile_as (Some uid) (UpdateProfile id new) db = Ran (Ok db')
  ∧ (profiles.role new = profiles.premium
     ∨ profiles.role new = profiles.admin →
     ∀ c, courses.is_approved c = Some true →
          courses.access_type c = courses.premium →
          can_select_course (Some uid) db' c)
  ∧ (¬ in_sync new db → ¬ stats_consistent uid db').
Proof.
  intros Hold Hu_old Hu_new Hint Hfree. simpl. split_and!.
  - unfold exec_profile_as. rewrite Hold.
    rewrite decide_True by (unfold policy.own_profile, sql_eq; congruence).
    rewrite decide_True by (unfold policy.own_profile, sql_eq; congruence).
    simpl. unfold update_profiles. rewrite Hold.
    rewrite (check_pass (counters_int4 new)) by done.
    rewrite (check_pass (¬ user_id_taken id new (tbl_profiles db))) by done.
    rewrite (check_pass (profiles.user_id new = profiles.user_id old ∨ _))
      by (left; congruence).
    rewrite (check_pass (profiles.user_id new = profiles.user_id old ∨ _))
      by (left; congruence).
    done.
  - intros Hrole c Happroved Hpremium. right. left. split; [done|].
    right. split; [done|]. exists id, new. simpl.
    rewrite lookup_insert_eq. unfold sql_eq. split; [done|].
    split; [congruence|done].
  - intros Hstale Hsync. apply Hstale.
    apply (Hsync id new); [|done]. simpl. by rewrite lookup_insert_eq.
Qed.

(** [user-a] takes the role premium on the sample, with counters that are
    out of date there. *)
Lemma own_profile_write_witness :
  let db' :=
    with_profiles sample.reassigned
      (<["profile-a" := direct.promotion]> (tbl_profiles sample.reassigned)) in
  exec_profile_as (Some "user-a") direct.promote sample.reassigned
  = Ran (Ok db')
  ∧ (profiles.role direct.promotion = profiles.premium
     ∨ profiles.role direct.promotion = profiles.admin →
     ∀ c, courses.is_approved c = Some true →
          courses.access_type c = courses.premium →
          can_select_course (Some "user-a") db' c)
  ∧ (¬ in_sync direct.promotion sample.reassigned →
     ¬ stats_consistent "user-a" db').
Proof.
  apply (own_profile_write "user-a" "profile-a"
           (profiles.mk "user-a" (Some "Ann") None profiles.user
              "2025-06-27T09:00:00Z" "2025-06-27T09:00:00Z"
              (Some 1%Z) (Some 2%Z) (Some 2%Z))
           direct.promotion sample.reassigned).
  - vm_compute. reflexivity.
  - reflexivity.
  - reflexivity.
  - vm_compute. intuition discriminate.
  - apply (bool_decide_unpack _). vm_compute. exact I.
Defined.
